(** * multer-cloud-storage: the IBM Cloud Object Storage engine for multer

    A shallow embedding of [src/index.ts]: parameter validation, the
    [CosStorage] engine with its two methods [_handleFile] and
    [_removeFile], and the two helpers [cosSingleUpload] and
    [cosMultipleUpload].

    The object-storage SDK, [crypto.randomBytes], the caller's key function
    and the middleware's callbacks are external collaborators.  What they
    answer is an input of the model (a [World] record, and functions that
    return or throw); what the adapter asks of them is recorded, in order,
    in a trace of [Event]s.  A method call is its synchronous body followed
    by the turn of the event loop that runs the handlers the body left
    behind.  The properties below are statements about that trace. *)

From Stdlib Require Import String Ascii List ZArith NArith Bool Lia.
From Stdlib.Strings Require Import Byte.
Import ListNotations.
Open Scope string_scope.
Open Scope list_scope.

Set Implicit Arguments.

(** ** JavaScript values that reach the adapter *)

(** [interface StorageParamError]. *)
Record StorageParamError := mkParamError {
  param : string;
  message : string
}.

(** The record handed to the completion callback of [_handleFile]
    (a [Partial<File>] with exactly these five fields). *)
Module Info.
Record t := make {
  etag : string;
  location : string;
  key : string;
  bucket : string;
  size : Z
}.
End Info.

(** The values the code passes around untyped ([any], [unknown]): keys,
    errors, callback arguments. *)
Inductive JsVal :=
| JUndefined
| JNull
| JStr (s : string)
| JNum (n : Z)
| JError (name msg : string)                    (* an [Error] instance *)
| JParamErrors (errors : list StorageParamError) (* a plain array *)
| JObjectInfo (info : Info.t).

(** How a call ends: it returns a value or throws one. *)
Inductive Outcome (A : Type) :=
| Ret (a : A)
| Throw (v : JsVal).
Arguments Throw {A} v.

(** [!s] on a string: only the empty string is falsy. *)
Definition str_truthy (s : string) : bool :=
  match s with
  | EmptyString => false
  | String _ _ => true
  end.

(** JavaScript truthiness, as used by [!err] and [a || b]. *)
Definition truthy (v : JsVal) : bool :=
  match v with
  | JUndefined => false
  | JNull => false
  | JStr s => str_truthy s
  | JNum n => negb (Z.eqb n 0)
  | JError _ _ => true
  | JParamErrors _ => true
  | JObjectInfo _ => true
  end.

Definition is_string (v : JsVal) : bool :=
  match v with
  | JStr _ => true
  | _ => false
  end.

(** [v instanceof Error]. *)
Definition is_error_instance (v : JsVal) : bool :=
  match v with
  | JError _ _ => true
  | _ => false
  end.

(** [a || dflt] where [a] is an optional string property. *)
Definition or_default (a : option string) (dflt : string) : string :=
  match a with
  | Some s => if str_truthy s then s else dflt
  | None => dflt
  end.

(** ** Requests, files and SDK messages *)

Inductive Request := ExpressRequest (handle : nat).
Inductive Readable := ReadableStream (handle : nat).
Inductive FileFilter := FilterFn (handle : nat).

(** [Express.Multer.File], the part of it an upload in progress has. *)
Module MulterFile.
Record t := make {
  fieldname : string;
  originalname : string;
  encoding : string;
  mimetype : string;
  stream : Readable
}.
End MulterFile.

(** [interface File extends Express.Multer.File]. *)
Module File.
Record t := make {
  base : MulterFile.t;
  bucket : string;
  key : string;
  location : string;
  etag : string
}.
End File.

(** [interface StorageParams]. [key] is the caller's function
    [key?(req, file): string]: for a request and a file it returns a
    string, or it throws. *)
Module Params.
Record t := make {
  fileFilter : option FileFilter;
  key : option (Request -> MulterFile.t -> Outcome string);
  fieldName : option string;
  maxCount : option Z;
  bucket : string;
  endpoint : string;
  apiKeyId : string;
  serviceInstanceId : string;
  signatureVersion : option string
}.
End Params.

(** The configuration object of [new ibm.S3({...})]. *)
Module ClientConfig.
Record t := make {
  endpoint : string;
  apiKeyId : string;
  serviceInstanceId : string;
  signatureVersion : option string
}.
End ClientConfig.

(** The service object; it is its configuration. *)
Inductive S3 := S3Client (config : ClientConfig.t).

(** [{ Bucket, Key, Body }] of [cos.upload]. [Key] is whatever
    [getObjectKey] returned. *)
Module UploadParams.
Record t := make {
  Bucket : string;
  Key : JsVal;
  Body : Readable
}.
End UploadParams.

(** [{ Bucket, Key }] of [cos.deleteObject]. *)
Module DeleteParams.
Record t := make {
  Bucket : string;
  Key : string
}.
End DeleteParams.

(** [ManagedUpload.SendData], what the upload promise resolves to. *)
Module SendData.
Record t := make {
  Location : string;
  ETag : string;
  Bucket : string;
  Key : string
}.
End SendData.

(** An [httpUploadProgress] event; [total] may be absent. Byte counts are
    integers. *)
Record Progress := mkProgress {
  loaded : Z;
  total : option Z
}.

Inductive Settled :=
| Resolved (res : SendData.t)
| Rejected (err : JsVal).

(** One managed upload as the SDK runs it: the progress events it emits,
    then how its promise settles. *)
Record UploadRun := mkUploadRun {
  progress : list Progress;
  settled : Settled
}.

(** What the external collaborators answer during one method call. *)
Record World := mkWorld {
  random_bytes : nat -> JsVal * list byte;          (* (err, buf) *)
  upload_run : UploadParams.t -> UploadRun;
  delete_result : DeleteParams.t -> JsVal * JsVal   (* (err, data) *)
}.

(** ** Observable events *)

Inductive Event :=
| EvNewS3 (cfg : ClientConfig.t)        (* [new ibm.S3(cfg)] *)
| EvRandomBytes (n : nat)               (* [crypto.randomBytes(n, _)] *)
| EvUpload (p : UploadParams.t)         (* [cos.upload(p)] *)
| EvDeleteObject (p : DeleteParams.t)   (* [cos.deleteObject(p, _)] *)
| EvCallback (args : list JsVal)        (* the middleware's callback is invoked *)
| EvUncaught (v : JsVal).               (* an exception nobody handles *)

Definition Trace := list Event.

(** A callback of the middleware: given what happened so far and its
    arguments, it returns ([None]) or throws ([Some v]). *)
Definition Callback := Trace -> list JsVal -> option JsVal.

(** ** The effect monad: state, and exceptions that keep the state *)

Definition M (S A : Type) : Type := S -> Outcome A * S.

Definition ret {S A} (a : A) : M S A := fun s => (Ret a, s).

Definition throw {S A} (v : JsVal) : M S A := fun s => (Throw v, s).

Definition bind {S A B} (m : M S A) (k : A -> M S B) : M S B :=
  fun s =>
    match m s with
    | (Ret a, s') => k a s'
    | (Throw v, s') => (Throw v, s')
    end.

(** [try { m } catch (v) { h v }]. *)
Definition try_catch {S A} (m : M S A) (h : JsVal -> M S A) : M S A :=
  fun s =>
    match m s with
    | (Ret a, s') => (Ret a, s')
    | (Throw v, s') => h v s'
    end.

Definition gets {S A} (f : S -> A) : M S A := fun s => (Ret (f s), s).

Declare Scope js_scope.
Delimit Scope js_scope with js.
Notation "x <- m ;; k" := (bind m (fun x => k))
  (at level 61, m at next level, right associativity) : js_scope.
Notation "m ;; k" := (bind m (fun _ => k))
  (at level 61, right associativity) : js_scope.
Open Scope js_scope.

(** States that carry the trace. *)
Class Logger (S : Type) := {
  history : S -> Trace;
  record_event : Event -> S -> S
}.

#[export] Instance Logger_Trace : Logger Trace := {
  history := fun tr => tr;
  record_event := fun e tr => tr ++ [e]
}.

Definition emit {S} `{Logger S} (e : Event) : M S unit :=
  fun s => (Ret tt, record_event e s).

(** Invoking a callback of the middleware. *)
Definition call {S} `{Logger S} (f : Callback) (args : list JsVal) : M S unit :=
  fun s =>
    let s' := record_event (EvCallback args) s in
    match f (history s) args with
    | None => (Ret tt, s')
    | Some v => (Throw v, s')
    end.

(** Invoking a value that may be [undefined] (an omitted argument). *)
Definition call_value {S} `{Logger S} (f : option Callback) (args : list JsVal)
  : M S unit :=
  match f with
  | Some g => call g args
  | None => throw (JError "TypeError" "cb is not a function")
  end.

(** ** Deferred work

    A job is synchronous code that may leave tasks to the event loop: it
    yields its outcome and state, and the tasks it scheduled, in the order
    it scheduled them. The event loop runs them after the synchronous code
    has come to its end, first scheduled first. *)
Definition Job (S A : Type) : Type := S -> Outcome A * S * list (M S unit).

(** Synchronous code, as a job that schedules nothing. *)
Definition now {S A} (m : M S A) : Job S A := fun s => (m s, []).

Definition jbind {S A B} (j : Job S A) (k : A -> Job S B) : Job S B :=
  fun s =>
    match j s with
    | (Ret a, s', tasks) => let '(r, more) := k a s' in (r, tasks ++ more)
    | (Throw v, s', tasks) => (Throw v, s', tasks)
    end.

Notation "x <~ j ;; k" := (jbind j (fun x => k))
  (at level 61, j at next level, right associativity) : js_scope.
Notation "j ;;; k" := (jbind j (fun _ => k))
  (at level 61, right associativity) : js_scope.

(** A task for the event loop: the code that schedules it goes on, and
    what the task throws is nobody's to catch. An uncaught exception is
    recorded as an event of its own and the loop goes on with the next
    task, as in a process that handles [uncaughtException];
    [until_uncaught] below reads off a trace what a process does that
    ends at its first uncaught exception. *)
Definition later {S} `{Logger S} (task : M S unit) : Job S unit :=
  fun s => (Ret tt, s, [try_catch task (fun v => emit (EvUncaught v))]).

Fixpoint run_tasks {S} (tasks : list (M S unit)) (s : S) : S :=
  match tasks with
  | [] => s
  | task :: rest => run_tasks rest (snd (task s))
  end.

(** A call, then the turn of the event loop that runs what it scheduled. *)
Definition event_loop {S A} (j : Job S A) : M S A :=
  fun s => let '(r, s', tasks) := j s in (r, run_tasks tasks s').

(** ** [getFilename]: the default key generator *)

Definition hex_digit (n : N) : ascii :=
  match n with
  | 0 => "0" | 1 => "1" | 2 => "2" | 3 => "3" | 4 => "4" | 5 => "5"
  | 6 => "6" | 7 => "7" | 8 => "8" | 9 => "9" | 10 => "a" | 11 => "b"
  | 12 => "c" | 13 => "d" | 14 => "e" | _ => "f"
  end%N%char.

Definition hex_of_byte (b : byte) : string :=
  let n := Byte.to_N b in
  String (hex_digit (n / 16)) (String (hex_digit (n mod 16)) EmptyString).

(** [buf.toString("hex")]. *)
Fixpoint toString_hex (buf : list byte) : string :=
  match buf with
  | [] => EmptyString
  | b :: rest => hex_of_byte b ++ toString_hex rest
  end.

(** [crypto.randomBytes(n, handler)]: the request is made now, the handler
    runs later with what the generator answered. *)
Definition randomBytes {S} `{Logger S} (n : nat)
    (handler : JsVal -> list byte -> M S unit) (w : World) : Job S unit :=
  now (emit (EvRandomBytes n)) ;;;
  later (let '(err, buf) := random_bytes w n in handler err buf).

(** [const getFilename = (req, file, cb) => { crypto.randomBytes(16, ...) }].
    The arrow function has a block body without [return]: the call itself
    evaluates to [undefined], the name goes to [cb]. *)
Definition getFilename_call {S} `{Logger S} (req : Request) (file : MulterFile.t)
    (cb : option Callback) (w : World) : Job S JsVal :=
  randomBytes 16
    (fun err buf =>
       if negb (truthy err)
       then call_value cb [err; JStr (toString_hex buf)]
       else call_value cb [err; JNull])
    w ;;;
  now (ret JUndefined).

(** [getFilename(req, file, cb)] called on its own: the call, then the
    event loop. *)
Definition getFilename {S} `{Logger S} (req : Request) (file : MulterFile.t)
    (cb : option Callback) (w : World) : M S JsVal :=
  event_loop (getFilename_call req file cb w).

(** ** [validateStorageParams] *)

(** [errors.push(e)]. *)
Definition push {A} (errors : list A) (e : A) : list A := errors ++ [e].

Definition validateStorageParams {S} (params : Params.t) : M S unit :=
  let errors : list StorageParamError := [] in
  let errors :=
    if negb (str_truthy (Params.endpoint params))
    then push errors
           {| param := "endpoint";
              message := "Failed to upload file: endpoint cannot be empty." |}
    else errors in
  let errors :=
    if negb (str_truthy (Params.bucket params))
    then push errors
           {| param := "bucket";
              message := "Failed to upload file: bucket name cannot be empty." |}
    else errors in
  let errors :=
    if negb (str_truthy (Params.apiKeyId params))
    then push errors
           {| param := "apiKeyId";
              message :=
                "Failed to upload file: Failed to upload file: API KEY ID cannot be empty." |}
    else errors in
  let errors :=
    if negb (str_truthy (Params.serviceInstanceId params))
    then push errors
           {| param := "serviceInstanceId";
              message :=
                "Failed to upload file: Service Instance Id cannot be empty." |}
    else errors in
  if (0 <? length errors)%nat then throw (JParamErrors errors) else ret tt.

(** ** [class CosStorage] *)

(** What [this.getObjectKey] holds: [opts.key || getFilename]. *)
Inductive ObjectKeyFn :=
| UserKey (f : Request -> MulterFile.t -> Outcome string)
| DefaultGetFilename.

Record CosStorage := mkCosStorage {
  cos : S3;
  bucket : string;
  getObjectKey : ObjectKeyFn
}.

(** [new ibm.S3(cfg)]. *)
Definition new_S3 {S} `{Logger S} (cfg : ClientConfig.t) : M S S3 :=
  emit (EvNewS3 cfg) ;; ret (S3Client cfg).

(** [constructor(opts: StorageParams)]. *)
Definition new_CosStorage {S} `{Logger S} (opts : Params.t) : M S CosStorage :=
  validateStorageParams opts ;;
  let this_bucket := Params.bucket opts in
  let this_getObjectKey :=
    match Params.key opts with
    | Some f => UserKey f
    | None => DefaultGetFilename
    end in
  this_cos <- new_S3 {| ClientConfig.endpoint := Params.endpoint opts;
                        ClientConfig.apiKeyId := Params.apiKeyId opts;
                        ClientConfig.serviceInstanceId := Params.serviceInstanceId opts;
                        ClientConfig.signatureVersion := Params.signatureVersion opts |} ;;
  ret {| cos := this_cos; bucket := this_bucket; getObjectKey := this_getObjectKey |}.

(** The state a method runs in: the engine object it is called on, and the
    trace. *)
Record Machine := mkMachine {
  this : CosStorage;
  log : Trace
}.

#[export] Instance Logger_Machine : Logger Machine := {
  history := log;
  record_event := fun e s => {| this := this s; log := log s ++ [e] |}
}.

(** [this.getObjectKey(req, file)]: two arguments, whatever the function
    is. What the caller's function throws is thrown here. *)
Definition apply_getObjectKey {S} `{Logger S} (f : ObjectKeyFn) (req : Request)
    (file : MulterFile.t) (w : World) : Job S JsVal :=
  match f with
  | UserKey g =>
      match g req file with
      | Ret k => now (ret (JStr k))
      | Throw v => now (throw v)
      end
  | DefaultGetFilename => getFilename_call req file None w
  end.

(** [this.cos.upload(params)]: the managed upload the SDK creates. *)
Definition cos_upload {S} `{Logger S} (client : S3) (params : UploadParams.t)
    (w : World) : M S UploadRun :=
  emit (EvUpload params) ;; ret (upload_run w params).

(** The [httpUploadProgress] listener, as a step on [fileSize]. *)
Definition on_httpUploadProgress (fileSize : Z) (event : Progress) : Z :=
  match total event with
  | Some t => if negb (t =? 0)%Z then t else fileSize
  | None => fileSize
  end.

(** [p.then(f).catch(g)] for a promise [p] that settles: [g] receives a
    rejection of [p] and also what [f] throws; what [g] throws is left
    unhandled. *)
Definition then_catch {S} `{Logger S} (p : Settled)
    (f : SendData.t -> M S unit) (g : JsVal -> M S unit) : Job S unit :=
  later (match p with
         | Resolved res => try_catch (f res) g
         | Rejected err => g err
         end).

Definition _handleFile_call (req : Request) (file : MulterFile.t)
    (callback : Callback) (w : World) : Job Machine unit :=
  keyfn <~ now (gets (fun s => getObjectKey (this s))) ;;
  key <~ apply_getObjectKey keyfn req file w ;;
  let fileSize := 0%Z in
  this_bucket <~ now (gets (fun s => bucket (this s))) ;;
  let params := {| UploadParams.Bucket := this_bucket;
                   UploadParams.Key := key;
                   UploadParams.Body := MulterFile.stream file |} in
  this_cos <~ now (gets (fun s => cos (this s))) ;;
  upload <~ now (cos_upload this_cos params w) ;;
  let fileSize := fold_left on_httpUploadProgress (progress upload) fileSize in
  then_catch (settled upload)
    (fun res =>
       call callback
         [JNull;
          JObjectInfo {| Info.etag := SendData.ETag res;
                         Info.location := SendData.Location res;
                         Info.key := SendData.Key res;
                         Info.bucket := SendData.Bucket res;
                         Info.size := fileSize |}])
    (fun err => call callback [err]).

(** One call of [_handleFile] as the middleware sees it: the call, then
    the event loop running the handlers the call left behind. *)
Definition _handleFile (req : Request) (file : MulterFile.t)
    (callback : Callback) (w : World) : M Machine unit :=
  event_loop (_handleFile_call req file callback w).

(** [this.cos.deleteObject(params, handler)]. *)
Definition cos_deleteObject {S} `{Logger S} (client : S3) (params : DeleteParams.t)
    (handler : JsVal -> JsVal -> M S unit) (w : World) : Job S unit :=
  now (emit (EvDeleteObject params)) ;;;
  later (let '(err, data) := delete_result w params in handler err data).

Definition _removeFile_call (req : Request) (file : File.t)
    (callback : Callback) (w : World) : Job Machine unit :=
  let params := {| DeleteParams.Bucket := File.bucket file;
                   DeleteParams.Key := File.key file |} in
  this_cos <~ now (gets (fun s => cos (this s))) ;;
  cos_deleteObject this_cos params
    (fun err data =>
       (if negb (truthy err) then call callback [JNull] else ret tt) ;;
       call callback [err])
    w.

(** One call of [_removeFile] as the middleware sees it: the call, then
    the event loop. *)
Definition _removeFile (req : Request) (file : File.t)
    (callback : Callback) (w : World) : M Machine unit :=
  event_loop (_removeFile_call req file callback w).

(** ** The helpers *)

(** What [multer(options)] keeps, and the middleware [.single] or [.array]
    makes of it. *)
Record MulterOptions := mkMulterOptions {
  fileFilter : option FileFilter;
  storage : CosStorage
}.

Inductive Middleware :=
| single (m : MulterOptions) (fieldName : string)
| array (m : MulterOptions) (fieldName : string) (maxCount : option Z).

Definition multer (options : MulterOptions) : MulterOptions := options.

Definition cosMultipleUpload {S} `{Logger S} (params : Params.t) : M S Middleware :=
  validateStorageParams params ;;
  engine <- new_CosStorage
              {| Params.fileFilter := None;
                 Params.key := Params.key params;
                 Params.fieldName := None;
                 Params.maxCount := None;
                 Params.bucket := Params.bucket params;
                 Params.endpoint := Params.endpoint params;
                 Params.apiKeyId := Params.apiKeyId params;
                 Params.serviceInstanceId := Params.serviceInstanceId params;
                 Params.signatureVersion :=
                   Some (or_default (Params.signatureVersion params) "iam") |} ;;
  ret (array (multer {| fileFilter := Params.fileFilter params; storage := engine |})
             (or_default (Params.fieldName params) "files")
             (Params.maxCount params)).

Definition cosSingleUpload {S} `{Logger S} (params : Params.t) : M S Middleware :=
  validateStorageParams params ;;
  engine <- new_CosStorage
              {| Params.fileFilter := None;
                 Params.key := Params.key params;
                 Params.fieldName := None;
                 Params.maxCount := None;
                 Params.bucket := Params.bucket params;
                 Params.endpoint := Params.endpoint params;
                 Params.apiKeyId := Params.apiKeyId params;
                 Params.serviceInstanceId := Params.serviceInstanceId params;
                 Params.signatureVersion :=
                   Some (or_default (Params.signatureVersion params) "iam") |} ;;
  ret (single (multer {| fileFilter := Params.fileFilter params; storage := engine |})
              (or_default (Params.fieldName params) "file")).

(** [export default (opts) => new CosStorage(opts)]. *)
Definition default_export {S} `{Logger S} (opts : Params.t) : M S CosStorage :=
  new_CosStorage opts.

(** ** Reading the trace *)

Definition uploads (tr : Trace) : list UploadParams.t :=
  flat_map (fun e => match e with EvUpload p => [p] | _ => [] end) tr.

Definition deletes (tr : Trace) : list DeleteParams.t :=
  flat_map (fun e => match e with EvDeleteObject p => [p] | _ => [] end) tr.

Definition callback_calls (tr : Trace) : list (list JsVal) :=
  flat_map (fun e => match e with EvCallback args => [args] | _ => [] end) tr.

Definition clients (tr : Trace) : list ClientConfig.t :=
  flat_map (fun e => match e with EvNewS3 cfg => [cfg] | _ => [] end) tr.

Definition uncaught (tr : Trace) : list JsVal :=
  flat_map (fun e => match e with EvUncaught v => [v] | _ => [] end) tr.

(** ** Sequences of method calls on one engine *)

Inductive MethodCall :=
| HandleFile (req : Request) (file : MulterFile.t) (callback : Callback) (w : World)
| RemoveFile (req : Request) (file : File.t) (callback : Callback) (w : World).

Definition invoke (c : MethodCall) : M Machine unit :=
  match c with
  | HandleFile req file callback w => _handleFile req file callback w
  | RemoveFile req file callback w => _removeFile req file callback w
  end.

Fixpoint run_calls (cs : list MethodCall) (s : Machine) : Machine :=
  match cs with
  | [] => s
  | c :: rest => run_calls rest (snd (invoke c s))
  end.

(** ** Sample inputs *)

Module Sample.
Definition req := ExpressRequest 1.
Definition file :=
  {| MulterFile.fieldname := "file";
     MulterFile.originalname := "photo.png";
     MulterFile.encoding := "7bit";
     MulterFile.mimetype := "image/png";
     MulterFile.stream := ReadableStream 7 |}.
Definition stored :=
  {| File.base := file; File.bucket := "media"; File.key := "a1b2";
     File.location := "https://cos.example/media/a1b2"; File.etag := "e-1" |}.
Definition res :=
  {| SendData.Location := "https://cos.example/media/a1b2";
     SendData.ETag := "e-1"; SendData.Bucket := "media"; SendData.Key := "a1b2" |}.
Definition sdk_error := JError "NetworkingError" "socket hang up".
Definition bytes16 : list byte :=
  [x00; x01; x7f; x80; xff; x10; x0a; xa0; xde; xad; xbe; xef; x42; x24; x99; x5c].
Definition events :=
  [ {| loaded := 10; total := Some 30%Z |};
    {| loaded := 20; total := None |};
    {| loaded := 30; total := Some 0%Z |} ].
(** The SDK answers: the upload succeeds after [events], the delete
    succeeds. *)
Definition w_ok :=
  {| random_bytes := fun _ => (JNull, bytes16);
     upload_run := fun _ => {| progress := events; settled := Resolved res |};
     delete_result := fun _ => (JNull, JUndefined) |}.
(** The SDK answers: upload and delete fail. *)
Definition w_fail :=
  {| random_bytes := fun _ => (JNull, bytes16);
     upload_run := fun _ => {| progress := []; settled := Rejected sdk_error |};
     delete_result := fun _ => (sdk_error, JNull) |}.
(** A callback that returns. *)
Definition cb_returns : Callback := fun _ _ => None.
(** A callback that throws when it is told of a success. *)
Definition cb_throws_on_success : Callback :=
  fun _ args =>
    match args with
    | JNull :: _ => Some (JError "Error" "handler failed")
    | _ => None
    end.
Definition opts :=
  {| Params.fileFilter := None; Params.key := None;
     Params.fieldName := None; Params.maxCount := None;
     Params.bucket := "media"; Params.endpoint := "s3.eu.cloud-object-storage.appdomain.cloud";
     Params.apiKeyId := "k-123"; Params.serviceInstanceId := "crn:v1:abc";
     Params.signatureVersion := None |}.
Definition opts_with_key :=
  {| Params.fileFilter := None;
     Params.key := Some (fun _ f => Ret (MulterFile.originalname f));
     Params.fieldName := Some "avatar"; Params.maxCount := Some 3%Z;
     Params.bucket := "media"; Params.endpoint := "s3.eu.cloud-object-storage.appdomain.cloud";
     Params.apiKeyId := "k-123"; Params.serviceInstanceId := "crn:v1:abc";
     Params.signatureVersion := Some "v4" |}.
(** The parameters of [src/app.ts]: all four required strings empty. *)
Definition opts_app :=
  {| Params.fileFilter := None; Params.key := None;
     Params.fieldName := None; Params.maxCount := None;
     Params.bucket := EmptyString; Params.endpoint := EmptyString;
     Params.apiKeyId := EmptyString; Params.serviceInstanceId := EmptyString;
     Params.signatureVersion := None |}.
(** Valid parameters whose optional strings are supplied, and empty. *)
Definition opts_blank :=
  {| Params.fileFilter := None; Params.key := None;
     Params.fieldName := Some EmptyString; Params.maxCount := None;
     Params.bucket := "media"; Params.endpoint := "s3.eu.cloud-object-storage.appdomain.cloud";
     Params.apiKeyId := "k-123"; Params.serviceInstanceId := "crn:v1:abc";
     Params.signatureVersion := Some EmptyString |}.
Definition client :=
  S3Client {| ClientConfig.endpoint := Params.endpoint opts;
              ClientConfig.apiKeyId := Params.apiKeyId opts;
              ClientConfig.serviceInstanceId := Params.serviceInstanceId opts;
              ClientConfig.signatureVersion := None |}.
Definition engine :=
  {| cos := client; bucket := "media"; getObjectKey := DefaultGetFilename |}.
Definition engine_with_key :=
  {| cos := client; bucket := "media";
     getObjectKey := UserKey (fun _ f => Ret (MulterFile.originalname f)) |}.
(** An engine whose key function throws for every file. *)
Definition key_error := JError "TypeError" "Cannot read properties of undefined".
Definition engine_key_throws :=
  {| cos := client; bucket := "media";
     getObjectKey := UserKey (fun _ _ => Throw key_error) |}.
Definition start (e : CosStorage) := {| this := e; log := [] |}.
(** The engine [new CosStorage(opts_with_key)] returns. *)
Definition engine_of_opts_with_key :=
  {| cos := S3Client
              {| ClientConfig.endpoint := Params.endpoint opts_with_key;
                 ClientConfig.apiKeyId := Params.apiKeyId opts_with_key;
                 ClientConfig.serviceInstanceId :=
                   Params.serviceInstanceId opts_with_key;
                 ClientConfig.signatureVersion := Some "v4" |};
     bucket := "media";
     getObjectKey := UserKey (fun _ f => Ret (MulterFile.originalname f)) |}.
(** What [cosSingleUpload opts_blank] returns. *)
Definition blank_single :=
  single {| fileFilter := None;
            storage :=
              {| cos := S3Client
                          {| ClientConfig.endpoint := Params.endpoint opts_blank;
                             ClientConfig.apiKeyId := Params.apiKeyId opts_blank;
                             ClientConfig.serviceInstanceId :=
                               Params.serviceInstanceId opts_blank;
                             ClientConfig.signatureVersion := Some "iam" |};
                 bucket := "media";
                 getObjectKey := DefaultGetFilename |} |}
         "file".
End Sample.

(** ** Words of the specification, as definitions *)

(** The four required parameters, in the order the validation visits them. *)
Definition required_names : list string :=
  ["endpoint"; "bucket"; "apiKeyId"; "serviceInstanceId"].

Definition required_value (p : Params.t) (name : string) : string :=
  if String.eqb name "endpoint" then Params.endpoint p
  else if String.eqb name "bucket" then Params.bucket p
  else if String.eqb name "apiKeyId" then Params.apiKeyId p
  else Params.serviceInstanceId p.

(** At least one of endpoint, bucket, apiKeyId, serviceInstanceId is empty. *)
Definition some_required_empty (p : Params.t) : Prop :=
  Params.endpoint p = EmptyString \/ Params.bucket p = EmptyString \/
  Params.apiKeyId p = EmptyString \/ Params.serviceInstanceId p = EmptyString.

(** The required parameters that are empty, in the fixed order. *)
Definition empty_required (p : Params.t) : list string :=
  filter (fun name => negb (str_truthy (required_value p name))) required_names.

(** The computation throws. *)
Definition throws {S A} (m : M S A) (s : S) : Prop :=
  exists v, fst (m s) = Throw v.

(** The total of the last progress event that carried a truthy total, and
    0 when no event carried one. *)
Definition truthy_total (e : Progress) : bool :=
  match total e with
  | Some t => negb (t =? 0)%Z
  | None => false
  end.

Definition last_truthy_total (events : list Progress) : Z :=
  match find truthy_total (rev events) with
  | Some e => match total e with Some t => t | None => 0%Z end
  | None => 0%Z
  end.

(** The optional string [supplied] defaults to [dflt]: [used] is [dflt]
    when nothing or the empty string was supplied, and the supplied string
    otherwise. *)
Definition defaults_to (supplied : option string) (dflt used : string) : Prop :=
  match supplied with
  | None => used = dflt
  | Some EmptyString => used = dflt
  | Some s => used = s
  end.

(** The field name a middleware registers, and the version its engine's
    client was configured with. *)
Definition registered_field (m : Middleware) : string :=
  match m with
  | single _ name => name
  | array _ name _ => name
  end.

Definition engine_of (m : Middleware) : CosStorage :=
  match m with
  | single o _ => storage o
  | array o _ _ => storage o
  end.

Definition client_signatureVersion (e : CosStorage) : option string :=
  match cos e with
  | S3Client cfg => ClientConfig.signatureVersion cfg
  end.

(** The fields of the object-info record that come from the SDK response. *)
Definition object_info (res : SendData.t) (fileSize : Z) : Info.t :=
  {| Info.etag := SendData.ETag res;
     Info.location := SendData.Location res;
     Info.key := SendData.Key res;
     Info.bucket := SendData.Bucket res;
     Info.size := fileSize |}.

(** How [this.getObjectKey(req, file)] ends: with the key, or with what
    the caller's key function threw. *)
Definition key_result (e : CosStorage) (req : Request) (file : MulterFile.t)
  : Outcome JsVal :=
  match getObjectKey e with
  | UserKey g =>
      match g req file with
      | Ret k => Ret (JStr k)
      | Throw v => Throw v
      end
  | DefaultGetFilename => Ret JUndefined
  end.

(** The key [this.getObjectKey(req, file)] evaluates to, when it does. *)
Definition object_key (e : CosStorage) (req : Request) (file : MulterFile.t) : JsVal :=
  match key_result e req file with
  | Ret k => k
  | Throw _ => JUndefined
  end.

(** The request [_handleFile] hands to [cos.upload]. *)
Definition upload_request (e : CosStorage) (req : Request) (file : MulterFile.t)
  : UploadParams.t :=
  {| UploadParams.Bucket := bucket e;
     UploadParams.Key := object_key e req file;
     UploadParams.Body := MulterFile.stream file |}.

(** The managed upload the SDK runs for a call of [_handleFile]. *)
Definition the_upload (w : World) (e : CosStorage) (req : Request)
    (file : MulterFile.t) : UploadRun :=
  upload_run w (upload_request e req file).

(** [fileSize] when the promise settles: the listener has seen every
    progress event. *)
Definition tracked_size (run : UploadRun) : Z :=
  fold_left on_httpUploadProgress (progress run) 0%Z.

(** The arguments of the completion callback for an upload that settled:
    [(null, objectInfo)] after a success, [(err)] alone after a failure. *)
Definition completion_args (run : UploadRun) : list JsVal :=
  match settled run with
  | Resolved res => [JNull; JObjectInfo (object_info res (tracked_size run))]
  | Rejected err => [err]
  end.

(** What evaluating [this.getObjectKey(req, file)] leaves in the trace:
    the default generator's request for random bytes, made during the
    call, and the [TypeError] of its handler, raised when the event loop
    runs it. *)
Definition keygen_request (e : CosStorage) : Trace :=
  match getObjectKey e with
  | UserKey _ => []
  | DefaultGetFilename => [EvRandomBytes 16]
  end.

Definition keygen_uncaught (e : CosStorage) : Trace :=
  match getObjectKey e with
  | UserKey _ => []
  | DefaultGetFilename => [EvUncaught (JError "TypeError" "cb is not a function")]
  end.

Definition keygen_events (e : CosStorage) : Trace :=
  keygen_request e ++ keygen_uncaught e.

(** The message the validation attaches to each required parameter. *)
Definition error_message (name : string) : string :=
  if String.eqb name "endpoint"
  then "Failed to upload file: endpoint cannot be empty."
  else if String.eqb name "bucket"
  then "Failed to upload file: bucket name cannot be empty."
  else if String.eqb name "apiKeyId"
  then "Failed to upload file: Failed to upload file: API KEY ID cannot be empty."
  else "Failed to upload file: Service Instance Id cannot be empty.".

(** One [StorageParamError] for each empty required parameter, in order. *)
Definition param_errors (p : Params.t) : list StorageParamError :=
  map (fun name => {| param := name; message := error_message name |})
      (empty_required p).

(** Every character of a hexadecimal encoding is one of [0-9a-f]. *)
Definition is_hex_char (c : ascii) : bool :=
  existsb (Ascii.eqb c)
    ["0"; "1"; "2"; "3"; "4"; "5"; "6"; "7"; "8"; "9"; "a"; "b"; "c"; "d"; "e"; "f"]%char.

(** ** Further readings of the trace *)

Definition random_requests (tr : Trace) : list nat :=
  flat_map (fun e => match e with EvRandomBytes n => [n] | _ => [] end) tr.

Definition is_handle (c : MethodCall) : bool :=
  match c with
  | HandleFile _ _ _ _ => true
  | RemoveFile _ _ _ _ => false
  end.

(** The history a completion callback of [_handleFile] is invoked in: what
    there was, the events of the call itself (the default generator's
    request, the upload request), and the event of the generator's handler,
    which the event loop runs first. *)
Definition completion_history (s : Machine) (req : Request) (file : MulterFile.t)
  : Trace :=
  log s ++ keygen_request (this s)
    ++ [EvUpload (upload_request (this s) req file)]
    ++ keygen_uncaught (this s).

(** What follows the completion callback in the trace. If the callback
    returned, nothing. If it threw after a failure, the exception is left
    unhandled. If it threw after a success, the [catch] handler invokes it
    again with the exception, and what that invocation throws is left
    unhandled. *)
Definition after_completion (callback : Callback) (h : Trace) (run : UploadRun)
  : Trace :=
  match callback h (completion_args run) with
  | None => []
  | Some v =>
      match settled run with
      | Resolved _ =>
          EvCallback [v]
          :: match callback (h ++ [EvCallback (completion_args run)]) [v] with
             | None => []
             | Some v' => [EvUncaught v']
             end
      | Rejected _ => [EvUncaught v]
      end
  end.


(** The call of a sequence issues an upload on engine [e]: it is a
    [_handleFile] whose key is produced. *)
Definition issues_upload (e : CosStorage) (c : MethodCall) : bool :=
  match c with
  | HandleFile req file _ _ =>
      match key_result e req file with
      | Ret _ => true
      | Throw _ => false
      end
  | RemoveFile _ _ _ _ => false
  end.

(** The delete request [_removeFile] makes for a file record. *)
Definition delete_request (file : File.t) : DeleteParams.t :=
  {| DeleteParams.Bucket := File.bucket file; DeleteParams.Key := File.key file |}.

(** Reading a hexadecimal name back into bytes: the inverse of
    [toString_hex], used to show that the encoding loses nothing. *)
Definition hex_value (c : ascii) : option N :=
  (if Ascii.eqb c "0" then Some 0 else if Ascii.eqb c "1" then Some 1
   else if Ascii.eqb c "2" then Some 2 else if Ascii.eqb c "3" then Some 3
   else if Ascii.eqb c "4" then Some 4 else if Ascii.eqb c "5" then Some 5
   else if Ascii.eqb c "6" then Some 6 else if Ascii.eqb c "7" then Some 7
   else if Ascii.eqb c "8" then Some 8 else if Ascii.eqb c "9" then Some 9
   else if Ascii.eqb c "a" then Some 10 else if Ascii.eqb c "b" then Some 11
   else if Ascii.eqb c "c" then Some 12 else if Ascii.eqb c "d" then Some 13
   else if Ascii.eqb c "e" then Some 14 else if Ascii.eqb c "f" then Some 15
   else None)%N%char.

Definition byte_of_hex (hi lo : ascii) : option byte :=
  match hex_value hi, hex_value lo with
  | Some h, Some l => Byte.of_N (h * 16 + l)
  | _, _ => None
  end.

Fixpoint fromHex (s : string) : option (list byte) :=
  match s with
  | EmptyString => Some []
  | String _ EmptyString => None
  | String hi (String lo rest) =>
      match byte_of_hex hi lo, fromHex rest with
      | Some b, Some bs => Some (b :: bs)
      | _, _ => None
      end
  end.

(** ** [src/app.ts]: the example server *)

(** The express application: the routes registered so far, the port it
    listens on once [listen] was called, and the trace. *)
Record Server := mkServer {
  routes : list (string * Middleware);
  listening : option Z;
  server_log : Trace
}.

#[export] Instance Logger_Server : Logger Server := {
  history := server_log;
  record_event := fun e s =>
    {| routes := routes s; listening := listening s;
       server_log := server_log s ++ [e] |}
}.

(** [app.post(path, handler)]. *)
Definition app_post (path : string) (handler : Middleware) : M Server unit :=
  fun s => (Ret tt, {| routes := routes s ++ [(path, handler)];
                       listening := listening s;
                       server_log := server_log s |}).

(** [app.listen(port, ...)]. *)
Definition app_listen (port : Z) : M Server unit :=
  fun s => (Ret tt, {| routes := routes s; listening := Some port;
                       server_log := server_log s |}).

(** The options object the three constructions of [app.ts] are given. *)
Definition app_options : Params.t :=
  {| Params.fileFilter := None; Params.key := None;
     Params.fieldName := None; Params.maxCount := None;
     Params.bucket := EmptyString; Params.endpoint := EmptyString;
     Params.apiKeyId := EmptyString; Params.serviceInstanceId := EmptyString;
     Params.signatureVersion := None |}.

(** The module body of [app.ts], statement by statement; the arguments of
    a call are evaluated before the call. *)
Definition app_ts : M Server unit :=
  engine <- default_export app_options ;;
  let upload := single (multer {| fileFilter := None; storage := engine |}) "file" in
  app_post "/" upload ;;
  one <- cosSingleUpload app_options ;;
  app_post "/single" one ;;
  many <- cosMultipleUpload app_options ;;
  app_post "/multiple" many ;;
  app_listen 5000.

(** The options object both helpers hand to [new CosStorage]. *)
Definition helper_options (params : Params.t) : Params.t :=
  {| Params.fileFilter := None;
     Params.key := Params.key params;
     Params.fieldName := None;
     Params.maxCount := None;
     Params.bucket := Params.bucket params;
     Params.endpoint := Params.endpoint params;
     Params.apiKeyId := Params.apiKeyId params;
     Params.serviceInstanceId := Params.serviceInstanceId params;
     Params.signatureVersion :=
       Some (or_default (Params.signatureVersion params) "iam") |}.

(** What a helper makes of the constructor's outcome. *)
Definition wrap_engine (make : CosStorage -> Middleware)
    (r : Outcome CosStorage * Trace) : Outcome Middleware * Trace :=
  match r with
  | (Ret e, tr) => (Ret (make e), tr)
  | (Throw v, tr) => (Throw v, tr)
  end.

(** ** Proof steps shared by the properties *)

Create Rewrite HintDb trace.

(** Unfold one method call down to the monad's primitives. *)
Ltac run_js :=
  unfold _handleFile, _removeFile, getFilename, event_loop, _handleFile_call,
    _removeFile_call, apply_getObjectKey, getFilename_call, randomBytes,
    cos_upload, cos_deleteObject, then_catch, later, jbind, now, try_catch,
    call_value, call, emit, bind, gets, ret, throw; cbn.

Ltac read_trace := autorewrite with trace; cbn.

(** Case analysis on how the promise settles, and on whether a callback
    invocation returns or throws. *)
Ltac case_settled :=
  match goal with
  | |- context [settled ?r] => destruct (settled r) as [?res|?err] eqn:?; cbn
  end.

Ltac case_callback :=
  match goal with
  | |- context [match ?f ?h ?a with Some _ => _ | None => _ end] =>
      destruct (f h a) as [?thrown|] eqn:?; cbn
  end.

(** Bring the histories of goal and hypotheses to one shape. *)
Ltac normal_history :=
  repeat rewrite <- app_assoc in *; cbn [app] in *.

(** * Properties *)

(** ** Trace readers distribute over concatenation *)

Lemma uploads_app (a b : Trace) : uploads (a ++ b) = uploads a ++ uploads b.
Proof. apply flat_map_app. Qed.

Lemma deletes_app (a b : Trace) : deletes (a ++ b) = deletes a ++ deletes b.
Proof. apply flat_map_app. Qed.

Lemma callback_calls_app (a b : Trace) :
  callback_calls (a ++ b) = callback_calls a ++ callback_calls b.
Proof. apply flat_map_app. Qed.

Lemma clients_app (a b : Trace) : clients (a ++ b) = clients a ++ clients b.
Proof. apply flat_map_app. Qed.

#[export] Hint Rewrite uploads_app deletes_app callback_calls_app clients_app
  app_nil_r : trace.
#[export] Hint Rewrite <- app_assoc : trace.

(** ** [_handleFile]: what one call does *)

(** The trace of one call of [_handleFile] whose key is produced, written
    out: the events of the call, the generator's handler, the completion
    callback, and whatever a throwing callback adds. The call returns and
    the engine is left as it was. *)
Lemma handleFile_log req file callback w s k :
  key_result (this s) req file = Ret k ->
  _handleFile req file callback w s
  = (Ret tt,
     {| this := this s;
        log := completion_history s req file
                 ++ EvCallback (completion_args (the_upload w (this s) req file))
                 :: after_completion callback (completion_history s req file)
                      (the_upload w (this s) req file) |}).
Proof.
  destruct s as [e tr]. cbn [this log].
  unfold after_completion, completion_history, completion_args, the_upload,
    tracked_size, keygen_request, keygen_uncaught, upload_request, object_key,
    object_info, key_result.
  cbn [this log]. intros Hk. run_js.
  destruct (getObjectKey e) as [g|]; run_js.
  - destruct (g req file) as [k'|v]; [|discriminate Hk]. run_js.
    case_settled; normal_history; repeat (case_callback; normal_history);
      reflexivity.
  - destruct (random_bytes w 16) as [rerr buf]. destruct (negb (truthy rerr)); cbn.
    all: case_settled; normal_history; repeat (case_callback; normal_history);
      reflexivity.
Qed.

(** A key function that throws ends the call before anything was asked of
    the SDK: the exception reaches the caller and the state is as it was. *)
Lemma handleFile_key_throws_eq req file callback w s v :
  key_result (this s) req file = Throw v ->
  _handleFile req file callback w s = (Throw v, s).
Proof.
  destruct s as [e tr]. unfold key_result. cbn [this log]. intros Hk. run_js.
  destruct (getObjectKey e) as [g|]; [|discriminate Hk].
  destruct (g req file) as [k|v']; inversion Hk; subst. reflexivity.
Qed.

(** The key generation uploads, deletes, constructs and calls back
    nothing. *)
Lemma keygen_readers (e : CosStorage) :
  uploads (keygen_request e) = [] /\ uploads (keygen_uncaught e) = []
  /\ deletes (keygen_request e) = [] /\ deletes (keygen_uncaught e) = []
  /\ clients (keygen_request e) = [] /\ clients (keygen_uncaught e) = []
  /\ callback_calls (keygen_request e) = []
  /\ callback_calls (keygen_uncaught e) = [].
Proof.
  unfold keygen_request, keygen_uncaught.
  destruct (getObjectKey e); repeat split; reflexivity.
Qed.

(** What follows the completion uploads, deletes and constructs nothing,
    and holds at most one more invocation of the callback. *)
Lemma after_completion_readers callback h run :
  uploads (after_completion callback h run) = []
  /\ deletes (after_completion callback h run) = []
  /\ clients (after_completion callback h run) = []
  /\ (List.length (callback_calls (after_completion callback h run)) <= 1)%nat.
Proof.
  unfold after_completion.
  destruct (callback h (completion_args run)) as [v|]; [|cbn; auto].
  destruct (settled run); [|cbn; auto].
  destruct (callback _ [v]); cbn; auto.
Qed.

(** What the constructor stores, when it returns. *)
Lemma new_CosStorage_returns (opts : Params.t) (tr tr' : Trace) (e : CosStorage) :
  new_CosStorage opts tr = (Ret e, tr') ->
  bucket e = Params.bucket opts
  /\ getObjectKey e = match Params.key opts with
                      | Some f => UserKey f
                      | None => DefaultGetFilename
                      end
  /\ cos e = S3Client {| ClientConfig.endpoint := Params.endpoint opts;
                         ClientConfig.apiKeyId := Params.apiKeyId opts;
                         ClientConfig.serviceInstanceId := Params.serviceInstanceId opts;
                         ClientConfig.signatureVersion := Params.signatureVersion opts |}.
Proof.
  unfold new_CosStorage, validateStorageParams, new_S3, push, emit, bind, ret, throw.
  destruct (str_truthy (Params.endpoint opts)), (str_truthy (Params.bucket opts)),
    (str_truthy (Params.apiKeyId opts)), (str_truthy (Params.serviceInstanceId opts));
    cbn; intros E; inversion E; subst; cbn; auto.
Qed.

Lemma uploads_cons e (tr : Trace) : uploads (e :: tr) = uploads [e] ++ uploads tr.
Proof. destruct e; reflexivity. Qed.

Lemma callback_calls_cons e (tr : Trace) :
  callback_calls (e :: tr) = callback_calls [e] ++ callback_calls tr.
Proof. destruct e; reflexivity. Qed.

(** The requests and the invocations of one call whose key is produced. *)
Lemma handleFile_uploads req file callback w s k :
  key_result (this s) req file = Ret k ->
  uploads (log (snd (_handleFile req file callback w s)))
  = uploads (log s) ++ [upload_request (this s) req file].
Proof.
  intros Hk. rewrite (handleFile_log req file callback w s Hk). cbn [snd log].
  unfold completion_history.
  rewrite !uploads_app, (uploads_cons (EvCallback _)).
  destruct (keygen_readers (this s)) as (-> & -> & _).
  match goal with
  | |- context [uploads (after_completion ?c ?h ?r)] =>
      destruct (after_completion_readers c h r) as (-> & _)
  end.
  cbn. now rewrite !app_nil_r.
Qed.

Lemma handleFile_callback_calls req file callback w s k :
  key_result (this s) req file = Ret k ->
  callback_calls (log (snd (_handleFile req file callback w s)))
  = callback_calls (log s)
      ++ completion_args (the_upload w (this s) req file)
      :: callback_calls (after_completion callback (completion_history s req file)
                           (the_upload w (this s) req file)).
Proof.
  intros Hk. rewrite (handleFile_log req file callback w s Hk). cbn [snd log].
  unfold completion_history at 1.
  rewrite !callback_calls_app, (callback_calls_cons (EvCallback _)).
  destruct (keygen_readers (this s)) as (_ & _ & _ & _ & _ & _ & -> & ->).
  cbn. now rewrite !app_nil_r.
Qed.

(** With a key function supplied, the request carries the string it
    returns. *)
Lemma handleFile_user_key req file callback w s g k :
  getObjectKey (this s) = UserKey g ->
  g req file = Ret k ->
  uploads (log (snd (_handleFile req file callback w s)))
  = uploads (log s) ++ [ {| UploadParams.Bucket := bucket (this s);
                            UploadParams.Key := JStr k;
                            UploadParams.Body := MulterFile.stream file |} ].
Proof.
  intros Hg Hk.
  assert (Hres : key_result (this s) req file = Ret (JStr k))
    by (unfold key_result; now rewrite Hg, Hk).
  rewrite (handleFile_uploads req file callback w s Hres).
  unfold upload_request, object_key. now rewrite Hres.
Qed.

Lemma hex_digit_is_hex (n : N) : is_hex_char (hex_digit n) = true.
Proof.
  unfold hex_digit. destruct n as [|p]; [reflexivity|].
  repeat first [reflexivity | destruct p as [p|p|]].
Qed.

Lemma toString_hex_length (buf : list byte) :
  String.length (toString_hex buf) = 2 * List.length buf.
Proof.
  induction buf as [|b rest IH]; [reflexivity|].
  cbn [toString_hex hex_of_byte List.length append String.length]. rewrite IH. lia.
Qed.

Lemma toString_hex_chars (buf : list byte) :
  forallb is_hex_char (list_ascii_of_string (toString_hex buf)) = true.
Proof.
  induction buf as [|b rest IH]; [reflexivity|].
  cbn [toString_hex hex_of_byte append list_ascii_of_string forallb].
  now rewrite !hex_digit_is_hex, IH.
Qed.

Example toString_hex_sample :
  toString_hex Sample.bytes16 = "00017f80ff100aa0deadbeef4224995c".
Proof. reflexivity. Qed.

(** Called the way it is written, with a callback, [getFilename] returns
    [undefined] and hands the hexadecimal name of the random bytes to the
    callback. *)
Lemma getFilename_with_callback req file (cb : Callback) w (tr : Trace) rerr buf :
  random_bytes w 16 = (rerr, buf) ->
  truthy rerr = false ->
  fst (getFilename req file (Some cb) w tr) = Ret JUndefined
  /\ callback_calls (snd (getFilename req file (Some cb) w tr))
     = callback_calls tr ++ [[rerr; JStr (toString_hex buf)]].
Proof.
  intros Hrb Herr. unfold getFilename. run_js. rewrite Hrb, Herr. cbn.
  case_callback; read_trace; split; reflexivity.
Qed.

(** C5 as stated fails: [this.getObjectKey(req, file)] is evaluated before
    [cos.upload] and outside any handler, so when the caller's key function
    throws, the call ends there and no upload request is made. *)
Lemma handleFile_throwing_key_uploads_nothing :
  _handleFile Sample.req Sample.file Sample.cb_returns Sample.w_ok
    (Sample.start Sample.engine_key_throws)
  = (Throw Sample.key_error, Sample.start Sample.engine_key_throws)
  /\ uploads (log (snd (_handleFile Sample.req Sample.file Sample.cb_returns
                          Sample.w_ok (Sample.start Sample.engine_key_throws))))
     = []
  /\ ~ (exists p,
          uploads (log (snd (_handleFile Sample.req Sample.file Sample.cb_returns
                               Sample.w_ok (Sample.start Sample.engine_key_throws))))
          = [p]).
Proof.
  split; [reflexivity|]. split; [reflexivity|].
  intros [p H]. vm_compute in H. discriminate H.
Qed.

(** C5, amended. Every call of [_handleFile] in which the key is produced
    (the key function returns, or the engine has none) hands exactly one
    upload request to the SDK; its [Bucket] is the engine's bucket and its
    [Body] the file's stream. This holds however the upload settles and
    whatever the callback does, so a failed upload is not tried again. *)
Theorem handleFile_one_upload req file callback w s k :
  key_result (this s) req file = Ret k ->
  uploads (log (snd (_handleFile req file callback w s)))
  = uploads (log s) ++ [ {| UploadParams.Bucket := bucket (this s);
                            UploadParams.Key := k;
                            UploadParams.Body := MulterFile.stream file |} ].
Proof.
  intros Hk. rewrite (handleFile_uploads req file callback w s Hk).
  unfold upload_request, object_key. now rewrite Hk.
Qed.

Lemma handleFile_one_upload_witness :
  uploads (log (snd (_handleFile Sample.req Sample.file Sample.cb_returns
                       Sample.w_fail (Sample.start Sample.engine_with_key))))
  = uploads (log (Sample.start Sample.engine_with_key))
      ++ [ {| UploadParams.Bucket := bucket (this (Sample.start Sample.engine_with_key));
              UploadParams.Key := JStr "photo.png";
              UploadParams.Body := MulterFile.stream Sample.file |} ].
Proof.
  apply (@handleFile_one_upload Sample.req Sample.file Sample.cb_returns
           Sample.w_fail (Sample.start Sample.engine_with_key) (JStr "photo.png")).
  reflexivity.
Defined.

(** C1, where the code departs from it. An engine constructed without
    [opts.key] sends [Key: undefined], not a string: [getFilename] is
    written to deliver the name to a callback, [_handleFile] calls it with
    two arguments and uses its return value, and the generated name is
    lost in a [TypeError] when the random bytes arrive. *)
Theorem handleFile_default_key_is_undefined
    (opts : Params.t) (tr0 tr1 : Trace) (e : CosStorage)
    req file callback w (tr : Trace) :
  Params.key opts = None ->
  new_CosStorage opts tr0 = (Ret e, tr1) ->
  exists p,
    uploads (log (snd (_handleFile req file callback w {| this := e; log := tr |})))
    = uploads tr ++ [p]
    /\ UploadParams.Key p = JUndefined
    /\ is_string (UploadParams.Key p) = false
    /\ In (EvUncaught (JError "TypeError" "cb is not a function"))
          (log (snd (_handleFile req file callback w {| this := e; log := tr |}))).
Proof.
  intros Hkey Hnew.
  destruct (new_CosStorage_returns _ _ Hnew) as (_ & Hgen & _). rewrite Hkey in Hgen.
  assert (Hk : key_result (this {| this := e; log := tr |}) req file = Ret JUndefined)
    by (unfold key_result; cbn [this]; now rewrite Hgen).
  exists (upload_request e req file).
  rewrite (handleFile_uploads req file callback w _ Hk).
  rewrite (handleFile_log req file callback w _ Hk). cbn [this log snd].
  unfold upload_request, object_key, completion_history, keygen_uncaught.
  cbn [this log]. unfold key_result. rewrite Hgen.
  repeat split; try reflexivity.
  apply in_or_app. left. apply in_or_app. right. apply in_or_app. right.
  apply in_or_app. right. left. reflexivity.
Qed.

Lemma handleFile_default_key_is_undefined_witness :
  exists p,
    uploads (log (snd (_handleFile Sample.req Sample.file Sample.cb_returns
                         Sample.w_ok (Sample.start Sample.engine))))
    = uploads [] ++ [p]
    /\ UploadParams.Key p = JUndefined
    /\ is_string (UploadParams.Key p) = false
    /\ In (EvUncaught (JError "TypeError" "cb is not a function"))
          (log (snd (_handleFile Sample.req Sample.file Sample.cb_returns
                       Sample.w_ok (Sample.start Sample.engine)))).
Proof.
  apply (@handleFile_default_key_is_undefined Sample.opts []
           (snd (new_CosStorage Sample.opts [])) Sample.engine).
  - reflexivity.
  - reflexivity.
Defined.

(** The default engine on the sample: the request goes out without a key,
    and the name is generated and thrown away when the handler runs. *)
Example handleFile_default_sample :
  log (snd (_handleFile Sample.req Sample.file Sample.cb_returns Sample.w_ok
              (Sample.start Sample.engine)))
  = [ EvRandomBytes 16;
      EvUpload {| UploadParams.Bucket := "media";
                  UploadParams.Key := JUndefined;
                  UploadParams.Body := ReadableStream 7 |};
      EvUncaught (JError "TypeError" "cb is not a function");
      EvCallback [JNull; JObjectInfo (object_info Sample.res 30)] ]
  /\ uncaught
       (log (snd (_handleFile Sample.req Sample.file Sample.cb_returns Sample.w_ok
                    (Sample.start Sample.engine))))
     = [ JError "TypeError" "cb is not a function" ].
Proof. split; reflexivity. Qed.




(** The two ends of the amended statement on the samples: one call after
    a success with a returning callback, one call after a failure with a
    callback that would throw on a success. *)
Example handleFile_callback_once_sample :
  callback_calls
    (log (snd (_handleFile Sample.req Sample.file Sample.cb_returns Sample.w_ok
                 (Sample.start Sample.engine_with_key))))
  = [ [JNull; JObjectInfo (object_info Sample.res 30)] ].
Proof. reflexivity. Qed.

Example handleFile_failed_upload_sample :
  callback_calls
    (log (snd (_handleFile Sample.req Sample.file Sample.cb_throws_on_success
                 Sample.w_fail (Sample.start Sample.engine_with_key))))
  = [ [Sample.sdk_error] ].
Proof. reflexivity. Qed.

(** ** Progress accumulation *)

(** The listener's fold is the total of the last event with a truthy
    total, and the starting value when there is none. *)
Lemma fold_progress_last (events : list Progress) (z : Z) :
  fold_left on_httpUploadProgress events z
  = match find truthy_total (rev events) with
    | Some e => match total e with Some t => t | None => 0%Z end
    | None => z
    end.
Proof.
  induction events as [|e events IH] using rev_ind; [reflexivity|].
  rewrite fold_left_app, rev_app_distr. cbn [fold_left rev app find].
  unfold on_httpUploadProgress at 1, truthy_total at 1.
  destruct (total e) as [t|] eqn:He; [destruct (negb (t =? 0)%Z)|]; cbn;
    first [exact IH | now rewrite He].
Qed.

Lemma tracked_size_last (run : UploadRun) :
  tracked_size run = last_truthy_total (progress run).
Proof. unfold tracked_size, last_truthy_total. apply fold_progress_last. Qed.

(** [last_truthy_total] read on the list itself: the events after the
    last truthy total do not count, and without a truthy total it is 0. *)
Lemma last_truthy_total_split (before after : list Progress) (e : Progress) (t : Z) :
  total e = Some t -> t <> 0%Z ->
  forallb (fun x => negb (truthy_total x)) after = true ->
  last_truthy_total (before ++ e :: after) = t.
Proof.
  intros He Ht Hafter. unfold last_truthy_total.
  rewrite rev_app_distr. cbn [rev]. rewrite <- app_assoc. cbn [app].
  assert (Hnone : forall l tail,
             forallb (fun x => negb (truthy_total x)) l = true ->
             find truthy_total (rev l ++ tail) = find truthy_total tail).
  { induction l as [|x l IH]; intros tail Hl; [reflexivity|].
    cbn [forallb] in Hl. apply andb_prop in Hl as [Hx Hl].
    cbn [rev]. rewrite <- app_assoc. rewrite (IH _ Hl). cbn [app find].
    destruct (truthy_total x); [discriminate Hx | reflexivity]. }
  rewrite (Hnone _ _ Hafter). cbn [find]. unfold truthy_total. rewrite He.
  destruct (Z.eqb_spec t 0); [contradiction|]. cbn. rewrite He. reflexivity.
Qed.

Lemma last_truthy_total_none (events : list Progress) :
  forallb (fun x => negb (truthy_total x)) events = true ->
  last_truthy_total events = 0%Z.
Proof.
  intros H. unfold last_truthy_total.
  assert (Hrev : forallb (fun x => negb (truthy_total x)) (rev events) = true).
  { rewrite forallb_forall in *. intros x Hx. apply H. now apply in_rev. }
  induction (rev events) as [|x l IH]; [reflexivity|].
  cbn [forallb] in Hrev. apply andb_prop in Hrev as [Hx Hl]. cbn [find].
  destruct (truthy_total x); [discriminate Hx | auto].
Qed.

(** C6. After a successful upload (made, so with its key produced) the
    callback is told a size that is the total of the last progress event
    with a truthy total, and 0 when no event had one: an event whose total
    is absent or zero leaves the size as it was. *)
Theorem handleFile_reported_size req file callback w s k res :
  key_result (this s) req file = Ret k ->
  settled (the_upload w (this s) req file) = Resolved res ->
  exists rest,
    callback_calls (log (snd (_handleFile req file callback w s)))
    = callback_calls (log s)
        ++ [JNull;
            JObjectInfo
              {| Info.etag := SendData.ETag res;
                 Info.location := SendData.Location res;
                 Info.key := SendData.Key res;
                 Info.bucket := SendData.Bucket res;
                 Info.size :=
                   last_truthy_total (progress (the_upload w (this s) req file)) |}]
           :: rest.
Proof.
  intros Hk Hres. rewrite (handleFile_callback_calls req file callback w s Hk).
  eexists. unfold completion_args at 1. rewrite Hres, tracked_size_last.
  reflexivity.
Qed.

Lemma handleFile_reported_size_witness :
  exists rest,
    callback_calls
      (log (snd (_handleFile Sample.req Sample.file Sample.cb_returns Sample.w_ok
                   (Sample.start Sample.engine_with_key))))
    = callback_calls []
        ++ [JNull;
            JObjectInfo
              {| Info.etag := "e-1";
                 Info.location := "https://cos.example/media/a1b2";
                 Info.key := "a1b2";
                 Info.bucket := "media";
                 Info.size := last_truthy_total Sample.events |}]
           :: rest.
Proof.
  apply (@handleFile_reported_size Sample.req Sample.file Sample.cb_returns
           Sample.w_ok (Sample.start Sample.engine_with_key) (JStr "photo.png")
           Sample.res).
  - reflexivity.
  - reflexivity.
Defined.

Example last_truthy_total_sample : last_truthy_total Sample.events = 30%Z.
Proof. reflexivity. Qed.

(** ** [_removeFile] *)

(** C7. Every call of [_removeFile] hands exactly one delete request to
    the SDK, for the object the file record names: [Bucket] is
    [file.bucket] and [Key] is [file.key]. *)
Theorem removeFile_one_delete req file callback w s :
  deletes (log (snd (_removeFile req file callback w s)))
  = deletes (log s) ++ [ {| DeleteParams.Bucket := File.bucket file;
                            DeleteParams.Key := File.key file |} ].
Proof.
  destruct s as [e tr]. run_js.
  destruct (delete_result w _) as [err data]. destruct (negb (truthy err)); cbn.
  all: repeat case_callback; read_trace; reflexivity.
Qed.

(** C4, where the code departs from it. When the delete succeeds the
    handler calls [callback(null)] and then falls through to
    [callback(err)]: a callback that returns is invoked twice. *)
Theorem removeFile_success_calls_back_twice req file callback w s err data :
  delete_result w {| DeleteParams.Bucket := File.bucket file;
                     DeleteParams.Key := File.key file |} = (err, data) ->
  truthy err = false ->
  (forall h, callback h [JNull] = None) ->
  callback_calls (log (snd (_removeFile req file callback w s)))
  = callback_calls (log s) ++ [[JNull]; [err]].
Proof.
  intros Hdel Herr Hret. destruct s as [e tr]. run_js.
  rewrite Hdel, Herr. cbn. rewrite Hret. cbn.
  case_callback; read_trace; reflexivity.
Qed.

Lemma removeFile_success_calls_back_twice_witness :
  callback_calls
    (log (snd (_removeFile Sample.req Sample.stored Sample.cb_returns Sample.w_ok
                 (Sample.start Sample.engine))))
  = callback_calls [] ++ [[JNull]; [JNull]].
Proof.
  apply (@removeFile_success_calls_back_twice Sample.req Sample.stored
           Sample.cb_returns Sample.w_ok (Sample.start Sample.engine) JNull JUndefined).
  - reflexivity.
  - reflexivity.
  - intros h. reflexivity.
Defined.

(** When the delete fails the callback is invoked once, with the error. *)
Lemma removeFile_failure_calls_back_once req file callback w s err data :
  delete_result w {| DeleteParams.Bucket := File.bucket file;
                     DeleteParams.Key := File.key file |} = (err, data) ->
  truthy err = true ->
  callback_calls (log (snd (_removeFile req file callback w s)))
  = callback_calls (log s) ++ [[err]].
Proof.
  intros Hdel Herr. destruct s as [e tr]. run_js.
  rewrite Hdel, Herr. cbn. case_callback; read_trace; reflexivity.
Qed.

(** [_removeFile] leaves the engine as it was. *)
Lemma removeFile_this req file callback w s :
  this (snd (_removeFile req file callback w s)) = this s.
Proof.
  destruct s as [e tr]. run_js.
  destruct (delete_result w _) as [err data]. destruct (negb (truthy err)); cbn.
  all: repeat case_callback; reflexivity.
Qed.

(** ** Validation and construction *)

Lemma str_truthy_false (s : string) : str_truthy s = false <-> s = EmptyString.
Proof. destruct s; cbn; split; intros H; try reflexivity; discriminate H. Qed.

Lemma param_errors_names (p : Params.t) :
  map param (param_errors p) = empty_required p.
Proof. unfold param_errors. rewrite map_map. cbn. apply map_id. Qed.

(** What [validateStorageParams] computes, in one equation. *)
Lemma validateStorageParams_eq {S} (p : Params.t) (s : S) :
  validateStorageParams p s
  = (match param_errors p with
     | [] => Ret tt
     | _ :: _ => Throw (JParamErrors (param_errors p))
     end, s).
Proof.
  unfold validateStorageParams, param_errors, empty_required, required_names,
    required_value, push, throw, ret.
  cbn [filter String.eqb Ascii.eqb Bool.eqb].
  destruct (str_truthy (Params.endpoint p)), (str_truthy (Params.bucket p)),
    (str_truthy (Params.apiKeyId p)), (str_truthy (Params.serviceInstanceId p));
    reflexivity.
Qed.

Lemma param_errors_nil (p : Params.t) :
  param_errors p = [] <-> ~ some_required_empty p.
Proof.
  unfold some_required_empty, param_errors, empty_required, required_names,
    required_value.
  cbn [filter String.eqb Ascii.eqb Bool.eqb].
  rewrite <- !str_truthy_false.
  destruct (str_truthy (Params.endpoint p)), (str_truthy (Params.bucket p)),
    (str_truthy (Params.apiKeyId p)), (str_truthy (Params.serviceInstanceId p));
    cbn; split; intros H; try reflexivity; try discriminate H;
    try (exfalso; apply H; auto; fail);
    intros [F|[F|[F|F]]]; discriminate F.
Qed.

Lemma param_errors_cons (p : Params.t) :
  param_errors p <> [] <-> some_required_empty p.
Proof.
  unfold some_required_empty, param_errors, empty_required, required_names,
    required_value.
  cbn [filter String.eqb Ascii.eqb Bool.eqb].
  rewrite <- !str_truthy_false.
  destruct (str_truthy (Params.endpoint p)), (str_truthy (Params.bucket p)),
    (str_truthy (Params.apiKeyId p)), (str_truthy (Params.serviceInstanceId p));
    cbn; split; intros H; auto; try discriminate;
    first [ exfalso; apply H; reflexivity
          | destruct H as [F|[F|[F|F]]]; discriminate F ].
Qed.

(** The constructor and the helpers, in one equation each: with a required
    parameter empty they throw the validation's array and touch nothing;
    otherwise they construct one client and return. *)
Lemma new_CosStorage_eq (p : Params.t) (tr : Trace) :
  new_CosStorage p tr
  = match param_errors p with
    | [] =>
        let cfg := {| ClientConfig.endpoint := Params.endpoint p;
                      ClientConfig.apiKeyId := Params.apiKeyId p;
                      ClientConfig.serviceInstanceId := Params.serviceInstanceId p;
                      ClientConfig.signatureVersion := Params.signatureVersion p |} in
        (Ret {| cos := S3Client cfg;
                bucket := Params.bucket p;
                getObjectKey := match Params.key p with
                                | Some f => UserKey f
                                | None => DefaultGetFilename
                                end |},
         tr ++ [EvNewS3 cfg])
    | _ :: _ => (Throw (JParamErrors (param_errors p)), tr)
    end.
Proof.
  unfold new_CosStorage, bind. rewrite validateStorageParams_eq.
  destruct (param_errors p); reflexivity.
Qed.

Lemma param_errors_helper_opts (p : Params.t) (sv : option string) :
  param_errors
    {| Params.fileFilter := None; Params.key := Params.key p;
       Params.fieldName := None; Params.maxCount := None;
       Params.bucket := Params.bucket p; Params.endpoint := Params.endpoint p;
       Params.apiKeyId := Params.apiKeyId p;
       Params.serviceInstanceId := Params.serviceInstanceId p;
       Params.signatureVersion := sv |}
  = param_errors p.
Proof. reflexivity. Qed.

Lemma cosSingleUpload_eq (p : Params.t) (tr : Trace) :
  cosSingleUpload p tr
  = match param_errors p with
    | [] =>
        let cfg := {| ClientConfig.endpoint := Params.endpoint p;
                      ClientConfig.apiKeyId := Params.apiKeyId p;
                      ClientConfig.serviceInstanceId := Params.serviceInstanceId p;
                      ClientConfig.signatureVersion :=
                        Some (or_default (Params.signatureVersion p) "iam") |} in
        (Ret (single {| fileFilter := Params.fileFilter p;
                        storage := {| cos := S3Client cfg;
                                      bucket := Params.bucket p;
                                      getObjectKey :=
                                        match Params.key p with
                                        | Some f => UserKey f
                                        | None => DefaultGetFilename
                                        end |} |}
                     (or_default (Params.fieldName p) "file")),
         tr ++ [EvNewS3 cfg])
    | _ :: _ => (Throw (JParamErrors (param_errors p)), tr)
    end.
Proof.
  unfold cosSingleUpload, bind. rewrite validateStorageParams_eq.
  destruct (param_errors p) eqn:E; [|reflexivity].
  rewrite new_CosStorage_eq, param_errors_helper_opts, E. reflexivity.
Qed.

Lemma cosMultipleUpload_eq (p : Params.t) (tr : Trace) :
  cosMultipleUpload p tr
  = match param_errors p with
    | [] =>
        let cfg := {| ClientConfig.endpoint := Params.endpoint p;
                      ClientConfig.apiKeyId := Params.apiKeyId p;
                      ClientConfig.serviceInstanceId := Params.serviceInstanceId p;
                      ClientConfig.signatureVersion :=
                        Some (or_default (Params.signatureVersion p) "iam") |} in
        (Ret (array {| fileFilter := Params.fileFilter p;
                       storage := {| cos := S3Client cfg;
                                     bucket := Params.bucket p;
                                     getObjectKey :=
                                       match Params.key p with
                                       | Some f => UserKey f
                                       | None => DefaultGetFilename
                                       end |} |}
                    (or_default (Params.fieldName p) "files")
                    (Params.maxCount p)),
         tr ++ [EvNewS3 cfg])
    | _ :: _ => (Throw (JParamErrors (param_errors p)), tr)
    end.
Proof.
  unfold cosMultipleUpload, bind. rewrite validateStorageParams_eq.
  destruct (param_errors p) eqn:E; [|reflexivity].
  rewrite new_CosStorage_eq, param_errors_helper_opts, E. reflexivity.
Qed.

(** C3. Constructing the engine, directly or through either helper, throws
    exactly when one of endpoint, bucket, apiKeyId, serviceInstanceId is
    empty. What is thrown then holds one [StorageParamError] (name and
    message) for each empty required parameter, and the trace is left as it
    was: no SDK client has been constructed. *)
Theorem construction_throws_iff_required_empty (p : Params.t) (tr : Trace) :
  (throws (new_CosStorage p) tr <-> some_required_empty p)
  /\ (throws (cosSingleUpload p) tr <-> some_required_empty p)
  /\ (throws (cosMultipleUpload p) tr <-> some_required_empty p)
  /\ (some_required_empty p ->
        new_CosStorage p tr = (Throw (JParamErrors (param_errors p)), tr)
        /\ cosSingleUpload p tr = (Throw (JParamErrors (param_errors p)), tr)
        /\ cosMultipleUpload p tr = (Throw (JParamErrors (param_errors p)), tr)
        /\ clients (snd (new_CosStorage p tr)) = clients tr
        /\ clients (snd (cosSingleUpload p tr)) = clients tr
        /\ clients (snd (cosMultipleUpload p tr)) = clients tr)
  /\ map param (param_errors p) = empty_required p
  /\ map message (param_errors p) = map error_message (empty_required p).
Proof.
  assert (Hnames := param_errors_names p).
  assert (Hmsgs : map message (param_errors p) = map error_message (empty_required p)).
  { unfold param_errors. rewrite map_map. reflexivity. }
  assert (Hnil := param_errors_nil p). assert (Hcons := param_errors_cons p).
  unfold throws.
  rewrite new_CosStorage_eq, cosSingleUpload_eq, cosMultipleUpload_eq.
  destruct (param_errors p) as [|e l].
  - assert (Hno : ~ some_required_empty p) by now apply Hnil.
    cbn [fst snd].
    repeat match goal with
           | |- _ /\ _ => split
           | |- _ <-> _ => split; [intros [v Hv]; discriminate Hv | intros H; contradiction]
           | |- some_required_empty p -> _ => intros H; contradiction
           end; assumption.
  - assert (Hyes : some_required_empty p) by (apply Hcons; discriminate).
    cbn [fst snd].
    repeat match goal with
           | |- _ /\ _ => split
           | |- _ <-> _ => split; [intros _; exact Hyes | intros _; eexists; reflexivity]
           | |- some_required_empty p -> _ => intros _
           end; first [assumption | reflexivity].
Qed.

(** C10. When the validation fails, what it throws is not an [Error]
    instance but a plain array of [StorageParamError]s: all the empty
    required parameters at once, in the order endpoint, bucket, apiKeyId,
    serviceInstanceId. *)
Theorem validation_throws_ordered_array {S} (p : Params.t) (s s' : S) (v : JsVal) :
  validateStorageParams p s = (Throw v, s') ->
  is_error_instance v = false
  /\ exists errors,
       v = JParamErrors errors
       /\ map param errors
          = filter (fun name => negb (str_truthy (required_value p name)))
                   ["endpoint"; "bucket"; "apiKeyId"; "serviceInstanceId"].
Proof.
  rewrite validateStorageParams_eq. intros H.
  destruct (param_errors p) as [|e l] eqn:E; inversion H; subst.
  split; [reflexivity|]. exists (e :: l). split; [reflexivity|].
  rewrite <- E. apply param_errors_names.
Qed.

Lemma validation_throws_ordered_array_witness :
  is_error_instance (JParamErrors (param_errors Sample.opts_app)) = false
  /\ exists errors,
       JParamErrors (param_errors Sample.opts_app) = JParamErrors errors
       /\ map param errors
          = filter (fun name => negb (str_truthy (required_value Sample.opts_app name)))
                   ["endpoint"; "bucket"; "apiKeyId"; "serviceInstanceId"].
Proof.
  apply (@validation_throws_ordered_array Trace Sample.opts_app [] []).
  reflexivity.
Defined.

(** The parameters of [src/app.ts] name all four, in order. *)
Example validation_sample :
  fst (validateStorageParams Sample.opts_app ([] : Trace))
  = Throw (JParamErrors
             [ {| param := "endpoint";
                  message := "Failed to upload file: endpoint cannot be empty." |};
               {| param := "bucket";
                  message := "Failed to upload file: bucket name cannot be empty." |};
               {| param := "apiKeyId";
                  message := "Failed to upload file: Failed to upload file: API KEY ID cannot be empty." |};
               {| param := "serviceInstanceId";
                  message := "Failed to upload file: Service Instance Id cannot be empty." |} ]).
Proof. reflexivity. Qed.

(** ** Defaults of the helpers *)

Lemma or_default_defaults_to (supplied : option string) (dflt : string) :
  defaults_to supplied dflt (or_default supplied dflt).
Proof. destruct supplied as [[|c s]|]; reflexivity. Qed.

(** C8 as stated fails: a supplied field name or signature version that is
    the empty string is not used unchanged, [||] replaces it by the
    default. *)
Lemma cosSingleUpload_empty_fieldName_is_replaced :
  exists m,
    fst (cosSingleUpload Sample.opts_blank ([] : Trace)) = Ret m
    /\ Params.fieldName Sample.opts_blank = Some EmptyString
    /\ registered_field m = "file"
    /\ registered_field m <> EmptyString
    /\ Params.signatureVersion Sample.opts_blank = Some EmptyString
    /\ client_signatureVersion (engine_of m) = Some "iam"
    /\ client_signatureVersion (engine_of m) <> Some EmptyString.
Proof.
  eexists. split; [reflexivity|]. cbn.
  repeat split; try reflexivity; discriminate.
Qed.

(** C8, amended. With valid parameters, [cosSingleUpload] registers the
    field name ["file"] and [cosMultipleUpload] the field name ["files"]
    when [fieldName] is not supplied or is the empty string, and both
    configure the client with signature version ["iam"] when
    [signatureVersion] is not supplied or is the empty string; a supplied
    non-empty [fieldName] or [signatureVersion] is used unchanged. *)
Theorem helpers_defaults (p : Params.t) (tr : Trace) :
  ~ some_required_empty p ->
  exists o1 o2 f1 f2 v1 v2,
    fst (cosSingleUpload p tr) = Ret (single o1 f1)
    /\ fst (cosMultipleUpload p tr) = Ret (array o2 f2 (Params.maxCount p))
    /\ defaults_to (Params.fieldName p) "file" f1
    /\ defaults_to (Params.fieldName p) "files" f2
    /\ client_signatureVersion (storage o1) = Some v1
    /\ client_signatureVersion (storage o2) = Some v2
    /\ defaults_to (Params.signatureVersion p) "iam" v1
    /\ defaults_to (Params.signatureVersion p) "iam" v2.
Proof.
  intros Hok. apply param_errors_nil in Hok.
  rewrite cosSingleUpload_eq, cosMultipleUpload_eq, Hok. cbn.
  do 6 eexists. repeat split; apply or_default_defaults_to.
Qed.

Lemma helpers_defaults_witness :
  exists o1 o2 f1 f2 v1 v2,
    fst (cosSingleUpload Sample.opts_with_key ([] : Trace)) = Ret (single o1 f1)
    /\ fst (cosMultipleUpload Sample.opts_with_key ([] : Trace))
       = Ret (array o2 f2 (Params.maxCount Sample.opts_with_key))
    /\ defaults_to (Params.fieldName Sample.opts_with_key) "file" f1
    /\ defaults_to (Params.fieldName Sample.opts_with_key) "files" f2
    /\ client_signatureVersion (storage o1) = Some v1
    /\ client_signatureVersion (storage o2) = Some v2
    /\ defaults_to (Params.signatureVersion Sample.opts_with_key) "iam" v1
    /\ defaults_to (Params.signatureVersion Sample.opts_with_key) "iam" v2.
Proof.
  apply (@helpers_defaults Sample.opts_with_key []).
  intros [F|[F|[F|F]]]; discriminate F.
Defined.

Example helpers_defaults_sample :
  registered_field
    (match fst (cosSingleUpload Sample.opts ([] : Trace)) with
     | Ret m => m
     | Throw _ => single {| fileFilter := None; storage := Sample.engine |} "?"
     end) = "file"
  /\ registered_field
       (match fst (cosMultipleUpload Sample.opts_with_key ([] : Trace)) with
        | Ret m => m
        | Throw _ => single {| fileFilter := None; storage := Sample.engine |} "?"
        end) = "avatar".
Proof. split; reflexivity. Qed.

(** ** The engine over a sequence of calls *)

Lemma removeFile_uploads req file callback w s :
  uploads (log (snd (_removeFile req file callback w s))) = uploads (log s).
Proof.
  destruct s as [e tr]. run_js.
  destruct (delete_result w _) as [err data]. destruct (negb (truthy err)); cbn.
  all: repeat case_callback; read_trace; reflexivity.
Qed.

(** One call: the engine is unchanged, and what it uploads goes to the
    engine's bucket. *)
Lemma invoke_invariant (c : MethodCall) (s : Machine) :
  this (snd (invoke c s)) = this s
  /\ exists issued,
       uploads (log (snd (invoke c s))) = uploads (log s) ++ issued
       /\ Forall (fun p => UploadParams.Bucket p = bucket (this s)) issued.
Proof.
  destruct c as [req file callback w | req file callback w]; cbn [invoke].
  - destruct (key_result (this s) req file) as [k|v] eqn:Hk.
    + split; [now rewrite (handleFile_log req file callback w s Hk)|].
      exists [upload_request (this s) req file].
      rewrite (handleFile_uploads req file callback w s Hk).
      split; [reflexivity | constructor; [reflexivity | constructor]].
    + rewrite (handleFile_key_throws_eq req file callback w s Hk). cbn [snd].
      split; [reflexivity|]. exists [].
      split; [now rewrite app_nil_r | constructor].
  - split; [apply removeFile_this|]. exists []. rewrite removeFile_uploads.
    split; [now rewrite app_nil_r | constructor].
Qed.

Lemma run_calls_invariant (calls : list MethodCall) :
  forall s,
    this (run_calls calls s) = this s
    /\ exists issued,
         uploads (log (run_calls calls s)) = uploads (log s) ++ issued
         /\ Forall (fun p => UploadParams.Bucket p = bucket (this s)) issued.
Proof.
  induction calls as [|c calls IH]; intros s; cbn [run_calls].
  - split; [reflexivity|]. exists []. split; [now rewrite app_nil_r | constructor].
  - destruct (invoke_invariant c s) as (Hthis & one & Hone & Hbucket).
    destruct (IH (snd (invoke c s))) as (Hthis' & more & Hmore & Hbucket').
    split; [now rewrite Hthis'|]. exists (one ++ more).
    rewrite Hmore, Hone, <- app_assoc. split; [reflexivity|].
    apply Forall_app. split; [exact Hbucket|]. now rewrite Hthis in Hbucket'.
Qed.

(** C9. The configuration of an engine is fixed when it is constructed:
    after any sequence of [_handleFile] and [_removeFile] calls the engine
    holds the bucket, key function and client it was given, and every
    upload the calls issued went to the bucket of the constructor's
    options. *)
Theorem engine_configuration_fixed
    (opts : Params.t) (tr0 tr1 : Trace) (e : CosStorage)
    (calls : list MethodCall) (tr : Trace) :
  new_CosStorage opts tr0 = (Ret e, tr1) ->
  this (run_calls calls {| this := e; log := tr |}) = e
  /\ bucket (this (run_calls calls {| this := e; log := tr |})) = Params.bucket opts
  /\ exists issued,
       uploads (log (run_calls calls {| this := e; log := tr |})) = uploads tr ++ issued
       /\ Forall (fun p => UploadParams.Bucket p = Params.bucket opts) issued.
Proof.
  intros Hnew. destruct (new_CosStorage_returns _ _ Hnew) as (Hb & _ & _).
  destruct (run_calls_invariant calls {| this := e; log := tr |})
    as (Hthis & issued & Hup & Hall).
  cbn [this log] in *. rewrite Hthis. repeat split; [exact Hb|].
  exists issued. split; [exact Hup|]. now rewrite <- Hb.
Qed.

Lemma engine_configuration_fixed_witness :
  let calls :=
    [ HandleFile Sample.req Sample.file Sample.cb_returns Sample.w_ok;
      RemoveFile Sample.req Sample.stored Sample.cb_returns Sample.w_fail;
      HandleFile Sample.req Sample.file Sample.cb_throws_on_success Sample.w_fail ] in
  this (run_calls calls (Sample.start Sample.engine)) = Sample.engine
  /\ bucket (this (run_calls calls (Sample.start Sample.engine))) = "media"
  /\ exists issued,
       uploads (log (run_calls calls (Sample.start Sample.engine))) = uploads [] ++ issued
       /\ Forall (fun p => UploadParams.Bucket p = "media") issued.
Proof.
  cbn zeta.
  apply (@engine_configuration_fixed Sample.opts []
           (snd (new_CosStorage Sample.opts [])) Sample.engine).
  reflexivity.
Defined.


(** * Further properties of the code *)

(** ** The default generator and the hexadecimal encoding *)

Lemma byte_of_hex_of_byte (b : byte) :
  match hex_of_byte b with
  | String hi (String lo EmptyString) => byte_of_hex hi lo = Some b
  | _ => False
  end.
Proof. destruct b; reflexivity. Qed.

Lemma fromHex_toString_hex (buf : list byte) :
  fromHex (toString_hex buf) = Some buf.
Proof.
  induction buf as [|b rest IH]; [reflexivity|].
  cbn [toString_hex]. pose proof (byte_of_hex_of_byte b) as Hb.
  destruct (hex_of_byte b) as [|hi [|lo [|c t]]]; try contradiction.
  cbn [append fromHex]. now rewrite Hb, IH.
Qed.

(** The hexadecimal encoding of the generator is injective: two buffers
    with the same name are the same buffer. *)
Lemma toString_hex_injective (a b : list byte) :
  toString_hex a = toString_hex b -> a = b.
Proof.
  intros H. assert (E : fromHex (toString_hex a) = fromHex (toString_hex b))
    by now rewrite H.
  rewrite !fromHex_toString_hex in E. now inversion E.
Qed.

(** Given a callback and 16 random bytes, [getFilename] returns
    [undefined] and invokes the callback once, with the falsy error and a
    name of 32 characters, all in [0-9a-f], that encodes the bytes. *)
Theorem getFilename_delivers_hex_name
    req file (cb : Callback) w (tr : Trace) rerr buf :
  random_bytes w 16 = (rerr, buf) ->
  truthy rerr = false ->
  List.length buf = 16%nat ->
  fst (getFilename req file (Some cb) w tr) = Ret JUndefined
  /\ exists name,
       callback_calls (snd (getFilename req file (Some cb) w tr))
       = callback_calls tr ++ [[rerr; JStr name]]
       /\ String.length name = 32%nat
       /\ forallb is_hex_char (list_ascii_of_string name) = true
       /\ fromHex name = Some buf.
Proof.
  intros Hrb Herr Hlen.
  destruct (getFilename_with_callback req file cb w tr Hrb Herr) as [Hret Hcalls].
  split; [exact Hret|]. exists (toString_hex buf). repeat split.
  - exact Hcalls.
  - rewrite toString_hex_length, Hlen. reflexivity.
  - apply toString_hex_chars.
  - apply fromHex_toString_hex.
Qed.

Lemma getFilename_delivers_hex_name_witness :
  fst (getFilename Sample.req Sample.file (Some Sample.cb_returns) Sample.w_ok
         ([] : Trace)) = Ret JUndefined
  /\ exists name,
       callback_calls (snd (getFilename Sample.req Sample.file
                              (Some Sample.cb_returns) Sample.w_ok ([] : Trace)))
       = callback_calls [] ++ [[JNull; JStr name]]
       /\ String.length name = 32%nat
       /\ forallb is_hex_char (list_ascii_of_string name) = true
       /\ fromHex name = Some Sample.bytes16.
Proof.
  apply (@getFilename_delivers_hex_name Sample.req Sample.file Sample.cb_returns
           Sample.w_ok [] JNull Sample.bytes16).
  - reflexivity.
  - reflexivity.
  - reflexivity.
Defined.

(** When the random generator reports an error, [getFilename] passes the
    error on with [null] for the name, once, and still returns
    [undefined]. *)
Theorem getFilename_reports_error
    req file (cb : Callback) w (tr : Trace) rerr buf :
  random_bytes w 16 = (rerr, buf) ->
  truthy rerr = true ->
  fst (getFilename req file (Some cb) w tr) = Ret JUndefined
  /\ callback_calls (snd (getFilename req file (Some cb) w tr))
     = callback_calls tr ++ [[rerr; JNull]]
  /\ random_requests (snd (getFilename req file (Some cb) w tr))
     = random_requests tr ++ [16%nat].
Proof.
  intros Hrb Herr. unfold getFilename. run_js. rewrite Hrb, Herr. cbn.
  unfold random_requests.
  case_callback; rewrite ?flat_map_app; read_trace; repeat split; reflexivity.
Qed.

Lemma getFilename_reports_error_witness :
  let w := {| random_bytes := fun _ => (JError "Error" "entropy", []);
              upload_run := upload_run Sample.w_ok;
              delete_result := delete_result Sample.w_ok |} in
  fst (getFilename Sample.req Sample.file (Some Sample.cb_returns) w ([] : Trace))
  = Ret JUndefined
  /\ callback_calls (snd (getFilename Sample.req Sample.file
                            (Some Sample.cb_returns) w ([] : Trace)))
     = callback_calls [] ++ [[JError "Error" "entropy"; JNull]]
  /\ random_requests (snd (getFilename Sample.req Sample.file
                             (Some Sample.cb_returns) w ([] : Trace)))
     = random_requests [] ++ [16%nat].
Proof.
  cbn zeta.
  apply (@getFilename_reports_error Sample.req Sample.file Sample.cb_returns
           _ [] (JError "Error" "entropy") []).
  - reflexivity.
  - reflexivity.
Defined.

(** ** Validation *)

(** Whatever the validation throws is sound and small: every entry names a
    required parameter that is indeed empty and carries that parameter's
    message, no parameter is named twice, there are between one and four
    entries, and the state is untouched. *)
Theorem validation_errors_sound {S} (p : Params.t) (s s' : S)
    (errors : list StorageParamError) :
  validateStorageParams p s = (Throw (JParamErrors errors), s') ->
  s' = s
  /\ (1 <= List.length errors <= 4)%nat
  /\ NoDup (map param errors)
  /\ Forall (fun e => In (param e) required_names
                      /\ required_value p (param e) = EmptyString
                      /\ message e = error_message (param e)) errors.
Proof.
  rewrite validateStorageParams_eq.
  unfold param_errors, empty_required, required_names.
  destruct p as [ff kf fn mc bk ep ak si sv].
  destruct ep as [|c1 e1], bk as [|c2 e2], ak as [|c3 e3], si as [|c4 e4];
    cbn; intros H; inversion H; subst; clear H.
  all: split; [reflexivity|]; split; [cbn; lia|]; split.
  all: try (repeat constructor; cbn; intuition discriminate).
  all: repeat constructor; cbn; auto 6.
Qed.

Lemma validation_errors_sound_witness :
  ([] : Trace) = []
  /\ (1 <= List.length (param_errors Sample.opts_app) <= 4)%nat
  /\ NoDup (map param (param_errors Sample.opts_app))
  /\ Forall (fun e => In (param e) required_names
                      /\ required_value Sample.opts_app (param e) = EmptyString
                      /\ message e = error_message (param e))
            (param_errors Sample.opts_app).
Proof.
  apply (@validation_errors_sound Trace Sample.opts_app [] []).
  reflexivity.
Defined.

(** The validation reads the four required strings and nothing else: two
    option objects that agree on them are treated alike, whatever their
    key function, field name, count, filter or signature version. *)
Theorem validation_ignores_optional {S} (p q : Params.t) (s : S) :
  Params.endpoint p = Params.endpoint q ->
  Params.bucket p = Params.bucket q ->
  Params.apiKeyId p = Params.apiKeyId q ->
  Params.serviceInstanceId p = Params.serviceInstanceId q ->
  validateStorageParams p s = validateStorageParams q s.
Proof.
  intros H1 H2 H3 H4. rewrite !validateStorageParams_eq.
  assert (E : param_errors p = param_errors q).
  { unfold param_errors, empty_required, required_names, required_value.
    cbn [filter String.eqb Ascii.eqb Bool.eqb]. now rewrite H1, H2, H3, H4. }
  now rewrite E.
Qed.

Lemma validation_ignores_optional_witness :
  validateStorageParams Sample.opts ([] : Trace)
  = validateStorageParams Sample.opts_with_key ([] : Trace).
Proof.
  apply (@validation_ignores_optional Trace Sample.opts Sample.opts_with_key []);
    reflexivity.
Defined.

(** ** Construction *)

(** Constructing the engine directly with valid options builds exactly one
    SDK client, from the endpoint, key id, instance id and signature
    version as they were supplied: an omitted signature version stays
    omitted on this path. The bucket and the key function go to the
    engine. *)
Theorem constructor_builds_one_client (opts : Params.t) (tr : Trace) :
  ~ some_required_empty opts ->
  exists e cfg,
    default_export opts tr = (Ret e, tr ++ [EvNewS3 cfg])
    /\ clients (tr ++ [EvNewS3 cfg]) = clients tr ++ [cfg]
    /\ cos e = S3Client cfg
    /\ bucket e = Params.bucket opts
    /\ ClientConfig.endpoint cfg = Params.endpoint opts
    /\ ClientConfig.apiKeyId cfg = Params.apiKeyId opts
    /\ ClientConfig.serviceInstanceId cfg = Params.serviceInstanceId opts
    /\ ClientConfig.signatureVersion cfg = Params.signatureVersion opts.
Proof.
  intros Hok. apply param_errors_nil in Hok.
  unfold default_export. rewrite new_CosStorage_eq, Hok. cbn zeta.
  do 2 eexists. split; [reflexivity|]. rewrite clients_app. cbn.
  repeat split; reflexivity.
Qed.

Lemma constructor_builds_one_client_witness :
  exists e cfg,
    default_export Sample.opts [] = (Ret e, [] ++ [EvNewS3 cfg])
    /\ clients ([] ++ [EvNewS3 cfg]) = clients [] ++ [cfg]
    /\ cos e = S3Client cfg
    /\ bucket e = Params.bucket Sample.opts
    /\ ClientConfig.endpoint cfg = Params.endpoint Sample.opts
    /\ ClientConfig.apiKeyId cfg = Params.apiKeyId Sample.opts
    /\ ClientConfig.serviceInstanceId cfg = Params.serviceInstanceId Sample.opts
    /\ ClientConfig.signatureVersion cfg = Params.signatureVersion Sample.opts.
Proof.
  apply (@constructor_builds_one_client Sample.opts []).
  intros [F|[F|[F|F]]]; discriminate F.
Defined.

(** Each helper is the constructor applied to the helper's options object
    and wrapped into a middleware: the helper's own validation adds
    nothing to the constructor's, the file filter and the maximal count go
    to multer as they were supplied, and both helpers build the same
    engine with the same effects. *)
Theorem helpers_wrap_constructor (p : Params.t) (tr : Trace) :
  cosSingleUpload p tr
  = wrap_engine
      (fun e => single (multer {| fileFilter := Params.fileFilter p; storage := e |})
                       (or_default (Params.fieldName p) "file"))
      (default_export (helper_options p) tr)
  /\ cosMultipleUpload p tr
     = wrap_engine
         (fun e => array (multer {| fileFilter := Params.fileFilter p; storage := e |})
                         (or_default (Params.fieldName p) "files")
                         (Params.maxCount p))
         (default_export (helper_options p) tr).
Proof.
  unfold default_export, helper_options.
  rewrite cosSingleUpload_eq, cosMultipleUpload_eq, new_CosStorage_eq,
    param_errors_helper_opts.
  destruct (param_errors p); split; reflexivity.
Qed.

(** A middleware made by a helper never registers the empty field name,
    and its engine's client always has a non-empty signature version. *)
Theorem helpers_never_register_empty (p : Params.t) (tr : Trace) (m : Middleware) :
  fst (cosSingleUpload p tr) = Ret m \/ fst (cosMultipleUpload p tr) = Ret m ->
  registered_field m <> EmptyString
  /\ exists v, client_signatureVersion (engine_of m) = Some v /\ v <> EmptyString.
Proof.
  rewrite cosSingleUpload_eq, cosMultipleUpload_eq.
  assert (Hd : forall a d, d <> EmptyString -> or_default a d <> EmptyString).
  { intros [[|c x]|] d Hd; cbn; congruence. }
  destruct (param_errors p); cbn [fst]; intros [H|H]; inversion H; subst; cbn.
  all: split; [apply Hd; discriminate|].
  all: eexists; split; [reflexivity | apply Hd; discriminate].
Qed.

Lemma helpers_never_register_empty_witness :
  registered_field Sample.blank_single <> EmptyString
  /\ exists v,
       client_signatureVersion (engine_of Sample.blank_single) = Some v
       /\ v <> EmptyString.
Proof.
  apply (@helpers_never_register_empty Sample.opts_blank [] Sample.blank_single).
  left. reflexivity.
Defined.

(** ** [_handleFile], further *)

Lemma uncaught_app (a b : Trace) : uncaught (a ++ b) = uncaught a ++ uncaught b.
Proof. apply flat_map_app. Qed.

Lemma uncaught_cons e (tr : Trace) : uncaught (e :: tr) = uncaught [e] ++ uncaught tr.
Proof. destruct e; reflexivity. Qed.

(** A callback that throws on being told of a success is invoked again by
    the [catch] handler, with what it threw; the caller of [_handleFile]
    sees nothing of it. *)
Theorem handleFile_success_throw_calls_again req file callback w s k res v :
  key_result (this s) req file = Ret k ->
  settled (the_upload w (this s) req file) = Resolved res ->
  callback (completion_history s req file)
           (completion_args (the_upload w (this s) req file)) = Some v ->
  fst (_handleFile req file callback w s) = Ret tt
  /\ callback_calls (log (snd (_handleFile req file callback w s)))
     = callback_calls (log s)
         ++ [completion_args (the_upload w (this s) req file); [v]].
Proof.
  intros Hk Hres Hthrow. split.
  - now rewrite (handleFile_log req file callback w s Hk).
  - rewrite (handleFile_callback_calls req file callback w s Hk).
    unfold after_completion. rewrite Hthrow, Hres.
    destruct (callback _ [v]); reflexivity.
Qed.

Lemma handleFile_success_throw_calls_again_witness :
  fst (_handleFile Sample.req Sample.file Sample.cb_throws_on_success Sample.w_ok
         (Sample.start Sample.engine_with_key)) = Ret tt
  /\ callback_calls
       (log (snd (_handleFile Sample.req Sample.file Sample.cb_throws_on_success
                    Sample.w_ok (Sample.start Sample.engine_with_key))))
     = callback_calls []
         ++ [completion_args (the_upload Sample.w_ok Sample.engine_with_key
                                Sample.req Sample.file);
             [JError "Error" "handler failed"]].
Proof.
  apply (@handleFile_success_throw_calls_again Sample.req Sample.file
           Sample.cb_throws_on_success Sample.w_ok
           (Sample.start Sample.engine_with_key) (JStr "photo.png") Sample.res
           (JError "Error" "handler failed")).
  - reflexivity.
  - reflexivity.
  - reflexivity.
Defined.

(** A callback that throws on being told of a failure is not invoked
    again: it was invoked once, with the error, and what it threw is left
    as an unhandled rejection. *)
Theorem handleFile_failure_throw_unhandled req file callback w s k err v :
  key_result (this s) req file = Ret k ->
  settled (the_upload w (this s) req file) = Rejected err ->
  callback (completion_history s req file) [err] = Some v ->
  fst (_handleFile req file callback w s) = Ret tt
  /\ callback_calls (log (snd (_handleFile req file callback w s)))
     = callback_calls (log s) ++ [[err]]
  /\ uncaught (log (snd (_handleFile req file callback w s)))
     = uncaught (log s) ++ uncaught (keygen_events (this s)) ++ [v].
Proof.
  intros Hk Herr Hthrow.
  assert (Hargs : completion_args (the_upload w (this s) req file) = [err])
    by (unfold completion_args; now rewrite Herr).
  assert (Hafter : after_completion callback (completion_history s req file)
                     (the_upload w (this s) req file) = [EvUncaught v])
    by (unfold after_completion; now rewrite Hargs, Hthrow, Herr).
  split; [now rewrite (handleFile_log req file callback w s Hk)|]. split.
  - rewrite (handleFile_callback_calls req file callback w s Hk), Hargs, Hafter.
    reflexivity.
  - rewrite (handleFile_log req file callback w s Hk). cbn [snd log].
    rewrite Hafter, Hargs. unfold completion_history, keygen_events.
    rewrite !uncaught_app, (uncaught_cons (EvCallback _)). cbn.
    now rewrite <- !app_assoc.
Qed.

Lemma handleFile_failure_throw_unhandled_witness :
  let cb : Callback := fun _ _ => Some (JStr "boom") in
  fst (_handleFile Sample.req Sample.file cb Sample.w_fail
         (Sample.start Sample.engine)) = Ret tt
  /\ callback_calls
       (log (snd (_handleFile Sample.req Sample.file cb Sample.w_fail
                    (Sample.start Sample.engine))))
     = callback_calls [] ++ [[Sample.sdk_error]]
  /\ uncaught
       (log (snd (_handleFile Sample.req Sample.file cb Sample.w_fail
                    (Sample.start Sample.engine))))
     = uncaught [] ++ uncaught (keygen_events Sample.engine) ++ [JStr "boom"].
Proof.
  cbn zeta.
  apply (@handleFile_failure_throw_unhandled Sample.req Sample.file
           (fun _ _ => Some (JStr "boom")) Sample.w_fail
           (Sample.start Sample.engine) JUndefined Sample.sdk_error (JStr "boom")).
  - reflexivity.
  - reflexivity.
  - reflexivity.
Defined.



(** [_handleFile] asks nothing else of its collaborators: it deletes no
    object, also when the upload fails, and constructs no client; it
    requests random bytes only when the engine has no key function, and
    then 16 of them, once. *)
Theorem handleFile_other_effects req file callback w s :
  deletes (log (snd (_handleFile req file callback w s))) = deletes (log s)
  /\ clients (log (snd (_handleFile req file callback w s))) = clients (log s)
  /\ random_requests (log (snd (_handleFile req file callback w s)))
     = random_requests (log s)
         ++ match getObjectKey (this s) with
            | UserKey _ => []
            | DefaultGetFilename => [16%nat]
            end.
Proof.
  destruct s as [e tr]. cbn [this log]. unfold random_requests. run_js.
  destruct (getObjectKey e) as [g|]; run_js.
  - destruct (g req file) as [k|v]; run_js.
    + case_settled; repeat case_callback.
      all: rewrite !flat_map_app; read_trace; repeat split; reflexivity.
    + rewrite app_nil_r. repeat split; reflexivity.
  - destruct (random_bytes w 16) as [rerr buf]. destruct (negb (truthy rerr)); cbn.
    all: case_settled; repeat case_callback.
    all: rewrite !flat_map_app; read_trace; repeat split; reflexivity.
Qed.

(** A key function that throws ends the call at once: what it threw
    reaches the caller of [_handleFile], and nothing has happened, no
    upload request, no invocation of the callback, no change of the
    engine. *)
Theorem handleFile_throwing_key_ends_call req file callback w s g v :
  getObjectKey (this s) = UserKey g ->
  g req file = Throw v ->
  fst (_handleFile req file callback w s) = Throw v
  /\ log (snd (_handleFile req file callback w s)) = log s
  /\ this (snd (_handleFile req file callback w s)) = this s.
Proof.
  intros Hg Hv.
  assert (Hk : key_result (this s) req file = Throw v)
    by (unfold key_result; now rewrite Hg, Hv).
  rewrite (handleFile_key_throws_eq req file callback w s Hk).
  repeat split; reflexivity.
Qed.

Lemma handleFile_throwing_key_ends_call_witness :
  fst (_handleFile Sample.req Sample.file Sample.cb_returns Sample.w_ok
         (Sample.start Sample.engine_key_throws)) = Throw Sample.key_error
  /\ log (snd (_handleFile Sample.req Sample.file Sample.cb_returns Sample.w_ok
                  (Sample.start Sample.engine_key_throws)))
     = log (Sample.start Sample.engine_key_throws)
  /\ this (snd (_handleFile Sample.req Sample.file Sample.cb_returns Sample.w_ok
                   (Sample.start Sample.engine_key_throws)))
     = this (Sample.start Sample.engine_key_throws).
Proof.
  apply (@handleFile_throwing_key_ends_call Sample.req Sample.file Sample.cb_returns
           Sample.w_ok (Sample.start Sample.engine_key_throws)
           (fun _ _ => Throw Sample.key_error) Sample.key_error).
  - reflexivity.
  - reflexivity.
Defined.




(** ** Progress accumulation, further *)

(** The tracked size is never invented: it is 0 exactly when no progress
    event carried a truthy total, and otherwise it is the total of one of
    the events. *)
Theorem tracked_size_is_a_total (run : UploadRun) :
  (tracked_size run = 0%Z <-> forallb (fun e => negb (truthy_total e)) (progress run) = true)
  /\ (tracked_size run <> 0%Z ->
      exists e, In e (progress run) /\ total e = Some (tracked_size run)).
Proof.
  rewrite tracked_size_last. unfold last_truthy_total.
  assert (Hfind : forall l,
             match find truthy_total l with
             | Some e => In e l /\ exists t, total e = Some t /\ t <> 0%Z
             | None => forallb (fun e => negb (truthy_total e)) l = true
             end).
  { induction l as [|x l IH]; [reflexivity|]. cbn [find forallb].
    destruct (truthy_total x) eqn:Hx.
    - split; [now left|]. unfold truthy_total in Hx.
      destruct (total x) as [t|]; [|discriminate Hx]. exists t. split; [reflexivity|].
      destruct (Z.eqb_spec t 0); [discriminate Hx | assumption].
    - cbn. destruct (find truthy_total l); [|exact IH].
      destruct IH as [Hin Ht]. split; [now right | exact Ht]. }
  assert (Hrev : forall l : list Progress,
             forallb (fun e => negb (truthy_total e)) (rev l)
             = forallb (fun e => negb (truthy_total e)) l).
  { intros l. apply eq_true_iff_eq. rewrite !forallb_forall.
    split; intros H x Hx; apply H; [now apply -> in_rev | now apply in_rev]. }
  specialize (Hfind (rev (progress run))).
  destruct (find truthy_total (rev (progress run))) as [e|].
  - destruct Hfind as (Hin & t & Ht & Hnz). rewrite Ht. split.
    + split; [intros H; contradiction|]. intros Hall. exfalso.
      rewrite <- Hrev, forallb_forall in Hall. specialize (Hall e Hin).
      unfold truthy_total in Hall. rewrite Ht in Hall.
      destruct (Z.eqb_spec t 0); [contradiction | discriminate Hall].
    + intros _. exists e. split; [now apply in_rev | exact Ht].
  - rewrite Hrev in Hfind. split; [split; auto | intros H; now contradiction H].
Qed.

(** ** [_removeFile], further *)

(** When the delete succeeds and the callback throws on [callback(null)],
    the fall-through call is not reached: the callback was invoked once,
    what it threw is left uncaught, and [_removeFile] itself returns. *)
Theorem removeFile_success_throw_once req file callback w s err data v :
  delete_result w (delete_request file) = (err, data) ->
  truthy err = false ->
  callback (log s ++ [EvDeleteObject (delete_request file)]) [JNull] = Some v ->
  fst (_removeFile req file callback w s) = Ret tt
  /\ callback_calls (log (snd (_removeFile req file callback w s)))
     = callback_calls (log s) ++ [[JNull]]
  /\ uncaught (log (snd (_removeFile req file callback w s)))
     = uncaught (log s) ++ [v].
Proof.
  destruct s as [e tr]. cbn [this log]. unfold delete_request, uncaught.
  intros Hdel Herr Hthrow. run_js. rewrite Hdel, Herr. cbn. rewrite Hthrow. cbn.
  rewrite !flat_map_app. read_trace. repeat split; reflexivity.
Qed.

Lemma removeFile_success_throw_once_witness :
  fst (_removeFile Sample.req Sample.stored Sample.cb_throws_on_success Sample.w_ok
         (Sample.start Sample.engine)) = Ret tt
  /\ callback_calls
       (log (snd (_removeFile Sample.req Sample.stored Sample.cb_throws_on_success
                    Sample.w_ok (Sample.start Sample.engine))))
     = callback_calls [] ++ [[JNull]]
  /\ uncaught
       (log (snd (_removeFile Sample.req Sample.stored Sample.cb_throws_on_success
                    Sample.w_ok (Sample.start Sample.engine))))
     = uncaught [] ++ [JError "Error" "handler failed"].
Proof.
  apply (@removeFile_success_throw_once Sample.req Sample.stored
           Sample.cb_throws_on_success Sample.w_ok (Sample.start Sample.engine)
           JNull JUndefined (JError "Error" "handler failed")).
  - reflexivity.
  - reflexivity.
  - reflexivity.
Defined.

(** When the delete fails the callback is invoked exactly once, with the
    SDK's error, also if it throws; the delete request has gone out
    before. *)
Theorem removeFile_failure_once req file callback w s err data :
  delete_result w (delete_request file) = (err, data) ->
  truthy err = true ->
  fst (_removeFile req file callback w s) = Ret tt
  /\ exists after,
       log (snd (_removeFile req file callback w s))
       = log s ++ EvDeleteObject (delete_request file) :: EvCallback [err] :: after
       /\ callback_calls after = [].
Proof.
  destruct s as [e tr]. cbn [this log]. unfold delete_request.
  intros Hdel Herr. run_js. rewrite Hdel, Herr. cbn.
  case_callback; (split; [reflexivity|]); eexists; normal_history;
    (split; [reflexivity|]); reflexivity.
Qed.

Lemma removeFile_failure_once_witness :
  fst (_removeFile Sample.req Sample.stored Sample.cb_returns Sample.w_fail
         (Sample.start Sample.engine)) = Ret tt
  /\ exists after,
       log (snd (_removeFile Sample.req Sample.stored Sample.cb_returns Sample.w_fail
                   (Sample.start Sample.engine)))
       = [] ++ EvDeleteObject (delete_request Sample.stored)
            :: EvCallback [Sample.sdk_error] :: after
       /\ callback_calls after = [].
Proof.
  apply (@removeFile_failure_once Sample.req Sample.stored Sample.cb_returns
           Sample.w_fail (Sample.start Sample.engine) Sample.sdk_error JNull).
  - reflexivity.
  - reflexivity.
Defined.

(** [_removeFile] does not look at the engine it is called on and asks
    nothing else of the SDK: the request names the file record's bucket,
    which may differ from the engine's, and the call uploads nothing,
    constructs no client, requests no random bytes and leaves the engine
    as it was. *)
Theorem removeFile_other_effects req file callback w s :
  deletes (log (snd (_removeFile req file callback w s)))
  = deletes (log s) ++ [delete_request file]
  /\ uploads (log (snd (_removeFile req file callback w s))) = uploads (log s)
  /\ clients (log (snd (_removeFile req file callback w s))) = clients (log s)
  /\ random_requests (log (snd (_removeFile req file callback w s)))
     = random_requests (log s)
  /\ this (snd (_removeFile req file callback w s)) = this s.
Proof.
  destruct s as [e tr]. cbn [this log]. unfold delete_request, random_requests.
  run_js. destruct (delete_result w _) as [err data].
  destruct (negb (truthy err)); cbn.
  all: repeat case_callback.
  all: rewrite !flat_map_app; read_trace; repeat split; reflexivity.
Qed.

(** ** Composition *)

Lemma handleFile_deletes_log req file callback w s :
  deletes (log (snd (_handleFile req file callback w s))) = deletes (log s).
Proof.
  destruct s as [e tr]. cbn [this log]. run_js.
  destruct (getObjectKey e) as [g|]; run_js.
  - destruct (g req file) as [k|v]; run_js; [|reflexivity].
    case_settled; repeat case_callback; read_trace; reflexivity.
  - destruct (random_bytes w 16) as [rerr buf]. destruct (negb (truthy rerr)); cbn.
    all: case_settled; repeat case_callback; read_trace; reflexivity.
Qed.

Lemma handleFile_clients_log req file callback w s :
  clients (log (snd (_handleFile req file callback w s))) = clients (log s).
Proof.
  destruct s as [e tr]. cbn [this log]. run_js.
  destruct (getObjectKey e) as [g|]; run_js.
  - destruct (g req file) as [k|v]; run_js; [|reflexivity].
    case_settled; repeat case_callback; read_trace; reflexivity.
  - destruct (random_bytes w 16) as [rerr buf]. destruct (negb (truthy rerr)); cbn.
    all: case_settled; repeat case_callback; read_trace; reflexivity.
Qed.

Lemma removeFile_clients_log req file callback w s :
  clients (log (snd (_removeFile req file callback w s))) = clients (log s).
Proof.
  destruct s as [e tr]. cbn [this log]. run_js.
  destruct (delete_result w _) as [err data]. destruct (negb (truthy err)); cbn.
  all: repeat case_callback; read_trace; reflexivity.
Qed.

Lemma removeFile_deletes_log req file callback w s :
  deletes (log (snd (_removeFile req file callback w s)))
  = deletes (log s) ++ [delete_request file].
Proof.
  destruct s as [e tr]. cbn [this log]. unfold delete_request. run_js.
  destruct (delete_result w _) as [err data]. destruct (negb (truthy err)); cbn.
  all: repeat case_callback; read_trace; reflexivity.
Qed.

(** Upload, then clean up. When the completion callback was told
    [(null, info)] and the file record carries that bucket and key, the
    upload had succeeded and [_removeFile] asks the SDK to delete the
    object the SDK's response named, whatever the bucket and key of the
    upload request were; nothing else is deleted. *)
Theorem remove_after_handle_targets_response
    req file callback w s info req' stored callback' w' :
  completion_args (the_upload w (this s) req file) = [JNull; JObjectInfo info] ->
  File.bucket stored = Info.bucket info ->
  File.key stored = Info.key info ->
  exists res,
    settled (the_upload w (this s) req file) = Resolved res
    /\ deletes (log (snd (_removeFile req' stored callback' w'
                            (snd (_handleFile req file callback w s)))))
       = deletes (log s) ++ [ {| DeleteParams.Bucket := SendData.Bucket res;
                                 DeleteParams.Key := SendData.Key res |} ].
Proof.
  unfold completion_args. intros Hargs Hb Hk.
  destruct (settled (the_upload w (this s) req file)) as [res|err];
    [|discriminate Hargs].
  inversion Hargs as [Hinfo]. exists res. split; [reflexivity|].
  rewrite removeFile_deletes_log, handleFile_deletes_log.
  unfold delete_request. rewrite Hb, Hk, <- Hinfo. reflexivity.
Qed.

Lemma remove_after_handle_targets_response_witness :
  exists res,
    settled (the_upload Sample.w_ok (this (Sample.start Sample.engine))
               Sample.req Sample.file) = Resolved res
    /\ deletes (log (snd (_removeFile Sample.req Sample.stored Sample.cb_returns
                            Sample.w_ok
                            (snd (_handleFile Sample.req Sample.file Sample.cb_returns
                                    Sample.w_ok (Sample.start Sample.engine))))))
       = deletes (log (Sample.start Sample.engine))
           ++ [ {| DeleteParams.Bucket := SendData.Bucket res;
                   DeleteParams.Key := SendData.Key res |} ].
Proof.
  apply (@remove_after_handle_targets_response Sample.req Sample.file
           Sample.cb_returns Sample.w_ok (Sample.start Sample.engine)
           (object_info Sample.res 30)
           Sample.req Sample.stored Sample.cb_returns Sample.w_ok).
  - reflexivity.
  - reflexivity.
  - reflexivity.
Defined.

(** Over any sequence of calls the engine issues one upload request for
    each [_handleFile] whose key is produced, none for a [_handleFile]
    whose key function throws, one delete request for each [_removeFile],
    and constructs no client. *)
Theorem run_calls_request_counts (calls : list MethodCall) (s : Machine) :
  List.length (uploads (log (run_calls calls s)))
  = (List.length (uploads (log s))
     + List.length (filter (issues_upload (this s)) calls))%nat
  /\ List.length (deletes (log (run_calls calls s)))
     = (List.length (deletes (log s))
        + List.length (filter (fun c => negb (is_handle c)) calls))%nat
  /\ clients (log (run_calls calls s)) = clients (log s).
Proof.
  revert s. induction calls as [|c calls IH]; intros s; cbn [run_calls filter].
  - rewrite !Nat.add_0_r. repeat split; reflexivity.
  - destruct (IH (snd (invoke c s))) as (Hu & Hd & Hc). rewrite Hu, Hd, Hc.
    destruct (invoke_invariant c s) as (-> & _).
    destruct c as [req file callback w | req file callback w];
      cbn [invoke is_handle issues_upload negb].
    + rewrite handleFile_deletes_log, handleFile_clients_log.
      destruct (key_result (this s) req file) as [k|v] eqn:Hk.
      * rewrite (handleFile_uploads req file callback w s Hk), length_app.
        cbn. repeat split; lia.
      * rewrite (handleFile_key_throws_eq req file callback w s Hk). cbn [snd].
        repeat split; lia.
    + rewrite removeFile_deletes_log, removeFile_uploads, removeFile_clients_log,
        length_app.
      cbn. repeat split; lia.
Qed.

(** ** The example server *)

(** Loading [app.ts] fails at its first statement: constructing the
    storage with the four empty strings throws the array of all four
    parameter errors, so no route is registered, no SDK client is
    constructed and the server never listens. *)
Theorem app_ts_fails_at_startup (s : Server) :
  app_ts s = (Throw (JParamErrors (param_errors app_options)), s)
  /\ map param (param_errors app_options) = required_names
  /\ routes (snd (app_ts s)) = routes s
  /\ listening (snd (app_ts s)) = listening s
  /\ clients (server_log (snd (app_ts s))) = clients (server_log s).
Proof.
  assert (E : app_ts s = (Throw (JParamErrors (param_errors app_options)), s)).
  { unfold app_ts, default_export, new_CosStorage, bind.
    rewrite validateStorageParams_eq. reflexivity. }
  rewrite E. repeat split; reflexivity.
Qed.

(** ** A supplied key function *)

(** An engine constructed with a key function sends, for a request and a
    file for which that function returns a string, one upload request with
    that string as its key, to the bucket of the options; the default
    generator is not consulted. *)
Theorem handleFile_supplied_key_is_used
    (opts : Params.t) (tr0 tr1 : Trace) (e : CosStorage)
    (f : Request -> MulterFile.t -> Outcome string) (k : string)
    req file callback w (tr : Trace) :
  Params.key opts = Some f ->
  new_CosStorage opts tr0 = (Ret e, tr1) ->
  f req file = Ret k ->
  uploads (log (snd (_handleFile req file callback w {| this := e; log := tr |})))
  = uploads tr ++ [ {| UploadParams.Bucket := Params.bucket opts;
                       UploadParams.Key := JStr k;
                       UploadParams.Body := MulterFile.stream file |} ]
  /\ random_requests
       (log (snd (_handleFile req file callback w {| this := e; log := tr |})))
     = random_requests tr.
Proof.
  intros Hkey Hnew Hret.
  destruct (new_CosStorage_returns _ _ Hnew) as (Hb & Hgen & _). rewrite Hkey in Hgen.
  split.
  - rewrite (@handleFile_user_key req file callback w {| this := e; log := tr |} f k
               Hgen Hret).
    cbn [this log]. now rewrite Hb.
  - unfold random_requests. run_js. rewrite Hgen. run_js. rewrite Hret. run_js.
    case_settled; repeat case_callback; rewrite !flat_map_app; read_trace;
      reflexivity.
Qed.

Lemma handleFile_supplied_key_is_used_witness :
  uploads (log (snd (_handleFile Sample.req Sample.file Sample.cb_returns Sample.w_ok
                       {| this := Sample.engine_of_opts_with_key; log := [] |})))
  = uploads [] ++ [ {| UploadParams.Bucket := Params.bucket Sample.opts_with_key;
                       UploadParams.Key := JStr "photo.png";
                       UploadParams.Body := MulterFile.stream Sample.file |} ]
  /\ random_requests
       (log (snd (_handleFile Sample.req Sample.file Sample.cb_returns Sample.w_ok
                    {| this := Sample.engine_of_opts_with_key; log := [] |})))
     = random_requests [].
Proof.
  apply (@handleFile_supplied_key_is_used Sample.opts_with_key []
           (snd (new_CosStorage Sample.opts_with_key []))
           Sample.engine_of_opts_with_key
           (fun _ x => Ret (MulterFile.originalname x)) "photo.png"
           Sample.req Sample.file Sample.cb_returns Sample.w_ok []).
  - reflexivity.
  - reflexivity.
  - reflexivity.
Defined.
